(** * Bob's Python packaging script and filter registry

    A shallow embedding of [python/setup.py] (package-description queries,
    flag classification, the linker probe of [build_ext.build_extension],
    the extension builder [setup_extension]) and of the class scan that
    closes [src/python/torch/filters.py], with the properties the design
    document states about them.

    Text is modelled as [string], a sequence of characters below 256,
    with the meaning the [str] methods of Python 3 give them.  Running a
    child process is a parameter of the model: it stands for
    [subprocess.Popen], [communicate] and the decoding of the captured
    bytes, and yields the text and the return code, or the exception one
    of the three raised; [capture] builds it from the two steps, the child
    that ran and the decoding of what it printed.  Python dictionaries are
    [gmap]s, Python [None]-or-value slots are [option]s, raised exceptions
    are the [Raise] branch of [result]. *)

From Stdlib Require Import String Ascii ZArith List Bool Lia.
From stdpp Require Import base option list gmap strings pretty.

Local Open Scope string_scope.
Local Open Scope Z_scope.
Local Open Scope list_scope.
#[local] Set Warnings "-clear-no-such-hyp".
#[local] Set Warnings "-register-all".

(** ** Exceptions and the error monad *)

Inductive exn : Type :=
  | RuntimeError (msg : string)
  | KeyError (key : string)
  | AttributeError (msg : string)
  | OSError (msg : string)
  | UnicodeDecodeError (msg : string).

Inductive result (A : Type) : Type :=
  | Ok (a : A)
  | Raise (e : exn).
Arguments Ok {A} a.
Arguments Raise {A} e.

#[global] Instance result_ret : MRet result := fun _ a => Ok a.
#[global] Instance result_bind : MBind result := fun _ _ f m =>
  match m with
  | Ok a => f a
  | Raise e => Raise e
  end.

Definition is_ok {A} (r : result A) : bool :=
  match r with Ok _ => true | Raise _ => false end.

(** The text an exception carries ([str(e)] / [e.args]). *)
Definition exn_text (e : exn) : string :=
  match e with
  | RuntimeError m => m
  | KeyError k => k
  | AttributeError m => m
  | OSError m => m
  | UnicodeDecodeError m => m
  end.

(** ** Python string primitives used by the scripts *)

Module Py.

(** [s[:n]] *)
Fixpoint take (n : nat) (s : string) : string :=
  match n, s with
  | S n', String c s' => String c (take n' s')
  | _, _ => EmptyString
  end.

(** [s[n:]] *)
Fixpoint drop (n : nat) (s : string) : string :=
  match n, s with
  | S n', String _ s' => drop n' s'
  | _, _ => s
  end.

(** Blank characters of captured output before it is decoded
    ([bytes.strip]): TAB, LF, VT, FF, CR and SPACE. *)
Definition isspace_bytes (c : ascii) : bool :=
  let n := nat_of_ascii c in
  ((9 <=? n)%nat && (n <=? 13)%nat) || (n =? 32)%nat.

(** Blank characters of decoded text ([str.split] and [str.isspace] of
    Python 3), on characters below 256: the above, the four separators
    FS, GS, RS, US (28 to 31), the next-line character U+0085 (133) and
    the no-break space U+00A0 (160). *)
Definition isspace (c : ascii) : bool :=
  let n := nat_of_ascii c in
  ((9 <=? n)%nat && (n <=? 13)%nat) || ((28 <=? n)%nat && (n <=? 32)%nat)
  || (n =? 133)%nat || (n =? 160)%nat.

(** [s.split()]: maximal runs of non-blank characters, in order.
    [cur] holds the token being read, reversed. *)
Fixpoint split_aux (cur : list ascii) (s : string) : list string :=
  match s with
  | EmptyString =>
      match cur with
      | [] => []
      | _ => [string_of_list_ascii (rev cur)]
      end
  | String c s' =>
      if isspace c then
        match cur with
        | [] => split_aux [] s'
        | _ => string_of_list_ascii (rev cur) :: split_aux [] s'
        end
      else split_aux (c :: cur) s'
  end.

Definition split (s : string) : list string := split_aux [] s.

(** [s.lstrip(chars)] for a one-character [chars]. *)
Fixpoint lstrip_char (a : ascii) (s : string) : string :=
  match s with
  | String c s' => if Ascii.eqb c a then lstrip_char a s' else s
  | EmptyString => EmptyString
  end.

Definition rev_string (s : string) : string :=
  string_of_list_ascii (rev (list_ascii_of_string s)).

Definition rstrip_char (a : ascii) (s : string) : string :=
  rev_string (lstrip_char a (rev_string s)).

(** [s.strip(chars)] for a one-character [chars]. *)
Definition strip_char (a : ascii) (s : string) : string :=
  rstrip_char a (lstrip_char a s).

Fixpoint lstrip_space (s : string) : string :=
  match s with
  | String c s' => if isspace_bytes c then lstrip_space s' else s
  | EmptyString => EmptyString
  end.

(** [s.strip()], as applied to the captured output: the script strips
    the bytes before decoding them, which gives the same text as
    stripping these one-byte blanks after decoding. *)
Definition strip (s : string) : string :=
  rev_string (lstrip_space (rev_string (lstrip_space s))).

(** [s.startswith(p)] *)
Fixpoint startswith (p s : string) : bool :=
  match p, s with
  | EmptyString, _ => true
  | String a p', String b s' => Ascii.eqb a b && startswith p' s'
  | String _ _, EmptyString => false
  end.

(** [s.find(sub)]: index of the first occurrence, [-1] when there is
    none. *)
Fixpoint find_from (i : Z) (sub s : string) : Z :=
  if startswith sub s then i
  else match s with
       | EmptyString => -1
       | String _ s' => find_from (i + 1) sub s'
       end.

Definition find (s sub : string) : Z := find_from 0 sub s.

Definition endswith_char (a : ascii) (s : string) : bool :=
  match rev (list_ascii_of_string s) with
  | c :: _ => Ascii.eqb c a
  | [] => false
  end.

(** [os.sep] and [os.path.join(a, b)] of [posixpath]. *)
Definition sep : ascii := "/"%char.

Definition path_join (a b : string) : string :=
  if startswith "/" b then b
  else if orb (String.eqb a "") (endswith_char sep a) then a +:+ b
  else a +:+ "/" +:+ b.

End Py.

Arguments Py.take : simpl never.
Arguments Py.drop : simpl never.

(** ** [pkgconfig]: the package query and the flag classifier *)

(** What [proc.communicate()[0]], decoded, and [proc.returncode] give once
    the child has finished. *)
Record completed : Type := Completed {
  output : string;
  returncode : Z;
}.

(** The local helper [uniq(seq, idfun)]: [seen] is the dictionary of
    markers met so far, [result] the list being built. *)
Definition uniq_step {A K} `{Countable K} (idfun : A → K)
    (st : gmap K Z * list A) (item : A) : gmap K Z * list A :=
  let '(seen, res) := st in
  let marker := idfun item in
  match seen !! marker with
  | Some _ => (seen, res)
  | None => (<[marker := 1]> seen, res ++ [item])
  end.

Definition uniq_by {A K} `{Countable K} (idfun : A → K) (seq : list A) : list A :=
  snd (foldl (uniq_step idfun) (∅, []) seq).

(** [uniq(v)] with the default [idfun] (the identity). *)
Definition uniq (seq : list string) : list string := uniq_by (fun x => x) seq.

Definition flag_map : gmap string string :=
  <["-l" := "libraries"]>
    (<["-L" := "library_dirs"]>
       (<["-I" := "include_dirs"]> ∅)).

(** [kw.setdefault(key, []).append(item)] *)
Definition setdefault_append (key item : string)
    (kw : gmap string (list string)) : gmap string (list string) :=
  <[key := default [] (kw !! key) ++ [item]]> kw.

(** One turn of the loop over [output.split()]. *)
Definition classify_token (kw : gmap string (list string)) (token : string)
    : gmap string (list string) :=
  match flag_map !! Py.take 2 token with
  | Some bucket => setdefault_append bucket (Py.drop 2 token) kw
  | None => setdefault_append "extra_compile_args" token kw
  end.

(** The body of [pkgconfig] after the return-code test: the token loop
    followed by the loop that replaces every value by [uniq(v)]. *)
Definition classify (tokens : list string) : gmap string (list string) :=
  uniq <$> foldl classify_token ∅ tokens.

Section Queries.

(** [subprocess.Popen(cmd, ...)], [communicate()] and the decoding of
    the output; [Raise] when one of them raises, as [Popen] does when the
    program cannot be started. *)
Variable popen : list string → result completed.

Definition pkgconfig (package : string) : result (gmap string (list string)) :=
  let cmd := ["pkg-config"; "--libs"; "--cflags"; package] in
  proc ← popen cmd;
  if negb (returncode proc =? 0) then mret ∅
  else mret (classify (Py.split (output proc))).

(** ** [bob_variables]: the toolbox record *)

(** The nested helper [get_var(name)]. *)
Definition get_var (name : string) : result (option string) :=
  let cmd := ["pkg-config"; "--variable=" +:+ name; "bob"] in
  proc ← popen cmd;
  let var := Py.strip (output proc) in
  if negb (returncode proc =? 0) then mret None
  else mret (Some var).

Definition newline : string := String (ascii_of_nat 10) EmptyString.

Definition bob_variables : result (gmap string (option string)) :=
  let cmd := ["pkg-config"; "--modversion"; "bob"] in
  proc ← popen cmd;
  let output := Py.strip (output proc) in
  let kw : gmap string (option string) := ∅ in
  let kw := <["version" := if returncode proc =? 0 then Some output else None]> kw in
  match kw !! "version" with
  | None => Raise (KeyError "version")
  | Some None =>
      Raise (RuntimeError
               ("Cannot retrieve Bob version from pkg-config:" +:+ newline +:+ output))
  | Some (Some _) =>
      libdir ← get_var "libdir";
      let kw := <["base_libdir" := libdir]> kw in
      includedir ← get_var "includedir";
      let kw := <["base_includedir" := includedir]> kw in
      mret kw
  end.

(** ** [setup_extension]: the extension descriptor *)

(** The keyword arguments handed to [Extension(...)]. *)
Record Extension : Type := mkExtension {
  ext_name : string;
  sources : list string;
  language : string;
  include_dirs : list string;
  library_dirs : list string;
  runtime_library_dirs : list string;
  libraries : list string;
}.

(** Module globals and the host the script runs on. *)
Variable DESTDIR : string.                    (* os.environ.get('DESTDIR', '') *)
Variable BOB : gmap string (option string).   (* BOB = bob_variables() *)
Variable version_info : nat * nat.            (* sys.version_info[:2] *)
Variable path_exists : string → bool.         (* os.path.exists *)
Variable platform_system : string.            (* platform.system() *)
Variable numpy_include : string.              (* numpy.get_include() *)

(** [BOB[key].<method>(os.sep)]: the subscript raises on a missing key,
    the attribute access raises on [None]. *)
Definition bob_path (key method : string) (f : string → string) : result string :=
  match BOB !! key with
  | None => Raise (KeyError key)
  | Some None =>
      Raise (AttributeError ("'NoneType' object has no attribute '" +:+ method +:+ "'"))
  | Some (Some dir) => mret (f dir)
  end.

(** [pc['libraries']] *)
Definition subscript (pc : gmap string (list string)) (key : string)
    : result (list string) :=
  match pc !! key with
  | Some v => mret v
  | None => Raise (KeyError key)
  end.

Definition setup_extension (ext_name pc_file : string) : result Extension :=
  pc ← pkgconfig (pc_file +:+ pretty (fst version_info) +:+ pretty (snd version_info));
  let library_dirs := default [] (pc !! "library_dirs") in
  let library_dirs := filter (fun k => path_exists k = true) library_dirs in
  let include_dirs := default [] (pc !! "include_dirs") in
  let include_dirs := filter (fun k => path_exists k = true) include_dirs in
  '(library_dirs, include_dirs) ←
    (if negb (String.length DESTDIR =? 0)%nat then
       libdir ← bob_path "base_libdir" "lstrip" (Py.lstrip_char Py.sep);
       let library_dirs := Py.path_join DESTDIR libdir :: library_dirs in
       includedir ← bob_path "base_includedir" "strip" (Py.strip_char Py.sep);
       let include_dirs := Py.path_join DESTDIR includedir :: include_dirs in
       mret (library_dirs, include_dirs)
     else mret (library_dirs, include_dirs));
  let sources := if negb (Py.find platform_system "CYGWIN" =? -1) then ["empty.c"] else [] in
  libraries ← subscript pc "libraries";
  mret {| ext_name := ext_name;
          sources := sources;
          language := "c++";
          include_dirs := include_dirs ++ [numpy_include];
          library_dirs := library_dirs;
          runtime_library_dirs := library_dirs;
          libraries := libraries |}.

End Queries.

(** ** Capturing the output: the child, then the decoding *)

(** What the child leaves once [Popen] and [communicate] have returned:
    its exit status, and what [output.decode('utf8')] gives for the bytes
    it printed, the text or the [UnicodeDecodeError]. *)
Record captured : Type := Captured {
  decoded : result string;
  exit_status : Z;
}.

(** The first lines of [pkgconfig], [get_var] and [bob_variables]: the
    child is run, its output is decoded, and only then is the return code
    looked at. *)
Definition capture (run : list string → result captured) (cmd : list string)
    : result completed :=
  raw ← run cmd;
  text ← decoded raw;
  mret {| output := text; returncode := exit_status raw |}.

(** ** [build_ext]: the customised build command *)

(** The compiler object held by the command: [linker_so], and
    [dll_libraries], an attribute only some compilers have (outer [None]:
    no such attribute; [Some None]: the attribute is [None]). *)
Record CCompiler : Type := mkCCompiler {
  linker_so : list string;
  dll_libraries : option (option (list string));
}.

(** A [build_ext] instance.  [own_linker_is_smart] is the entry of the
    instance dictionary, absent until [build_extension] assigns it. *)
Record build_ext : Type := mkBuildExt {
  own_linker_is_smart : option (option bool);
  compiler : CCompiler;
}.

(** The class attribute [linker_is_smart = None]. *)
Definition class_linker_is_smart : option bool := None.

(** [self.linker_is_smart]: the instance entry, else the class attribute. *)
Definition linker_is_smart (self : build_ext) : option bool :=
  default class_linker_is_smart (own_linker_is_smart self).

(** [build_ext(...)]: [__init__] only runs the base initialiser. *)
Definition build_ext_init (c : CCompiler) : build_ext :=
  {| own_linker_is_smart := None; compiler := c |}.

(** What the command does to its surroundings: the files present, and,
    as a trace, the temporary files made by [mkstemp], the linker commands
    launched by the probe, and the [linker_so] in force at each call of
    the base class's [build_extension]. *)
Record world : Type := mkWorld {
  files : gset string;
  temps : list string;
  probes : list (list string);
  base_calls : list (list string);
}.

Definition set_files (fs : gset string) (w : world) : world :=
  {| files := fs; temps := temps w; probes := probes w; base_calls := base_calls w |}.

Definition set_linker_so (so : list string) (self : build_ext) : build_ext :=
  {| own_linker_is_smart := own_linker_is_smart self;
     compiler := {| linker_so := so; dll_libraries := dll_libraries (compiler self) |} |}.

Definition set_linker_is_smart (b : bool) (self : build_ext) : build_ext :=
  {| own_linker_is_smart := Some (Some b); compiler := compiler self |}.

Definition set_dll_libraries (d : list string) (self : build_ext) : build_ext :=
  {| own_linker_is_smart := own_linker_is_smart self;
     compiler := {| linker_so := linker_so (compiler self); dll_libraries := Some (Some d) |} |}.

(** [ld_ok(opt)] *)
Definition ld_ok (opt : string) : bool :=
  if Py.find opt "-L" =? 0 then false else true.

Section Build.

(** [tempfile.mkstemp()]: the name of the file it creates. *)
Variable mkstemp : gset string → string.

(** Running a command on the files present ([Popen], [communicate] and
    the decoding of the output): what it yields, or the exception raised,
    and the files present afterwards.  [Popen] raises, and leaves the
    files alone, when the program cannot be started. *)
Variable spawn : list string → gset string → result completed * gset string.

(** [build_ext_base.build_extension(self, ext)], which reads the
    command and its compiler and acts on the files; it assigns neither
    [linker_is_smart] nor [compiler.linker_so]. *)
Variable base_build_extension :
  build_ext → Extension → gset string → result (gset string).

Definition linker_can_remove_symbols (linker : list string) (w : world)
    : result bool * world :=
  let name := mkstemp (files w) in
  let w := {| files := {[name]} ∪ files w; temps := temps w ++ [name];
              probes := probes w; base_calls := base_calls w |} in
  let cmd := linker ++ ["-Wl,--no-as-needed"; "-lm"; "-o"; name] in
  let w := {| files := files w; temps := temps w;
              probes := probes w ++ [cmd]; base_calls := base_calls w |} in
  match spawn cmd (files w) with
  | (Raise e, fs) => (Raise e, set_files fs w)
  | (Ok proc, fs) =>
      let fs := if decide (name ∈ fs) then fs ∖ {[name]} else fs in
      (Ok (if returncode proc =? 0 then true else false), set_files fs w)
  end.

Definition build_extension (ext : Extension) (st : build_ext * world)
    : result unit * (build_ext * world) :=
  let '(self, w) := st in
  let self := set_linker_so (filter (fun k => ld_ok k = true) (linker_so (compiler self))) self in
  let probed :=
    match linker_is_smart self with
    | None =>
        match linker_can_remove_symbols (linker_so (compiler self)) w with
        | (Raise e, w) => (Raise e, (self, w))
        | (Ok b, w) =>
            let self := set_linker_is_smart b self in
            let self :=
              if b then set_linker_so (linker_so (compiler self) ++ ["-Wl,--no-as-needed"]) self
              else self in
            (Ok (), (self, w))
        end
    | Some _ => (Ok (), (self, w))
    end in
  match probed with
  | (Raise e, st) => (Raise e, st)
  | (Ok _, (self, w)) =>
      let self :=
        match dll_libraries (compiler self) with
        | Some None => set_dll_libraries [] self
        | _ => self
        end in
      let w := {| files := files w; temps := temps w; probes := probes w;
                  base_calls := base_calls w ++ [linker_so (compiler self)] |} in
      match base_build_extension self ext (files w) with
      | Raise e => (Raise e, (self, w))
      | Ok fs => (Ok (), (self, set_files fs w))
      end
  end.

(** Successive calls [cmd.build_extension(ext)] on one command object;
    an exception that leaves [build_extension] ends the run. *)
Fixpoint build_extensions (exts : list Extension) (st : build_ext * world)
    : result unit * (build_ext * world) :=
  match exts with
  | [] => (Ok (), st)
  | ext :: rest =>
      match build_extension ext st with
      | (Raise e, st) => (Raise e, st)
      | (Ok _, st) => build_extensions rest st
      end
  end.

(** Builds made one after the other in one process, each on one of the
    command objects of the process (given by its position), whether the
    build before returned or raised. *)
Fixpoint build_sequence (steps : list (nat * Extension)) (objs : list build_ext)
    (w : world) : list build_ext * world :=
  match steps with
  | [] => (objs, w)
  | (i, ext) :: rest =>
      match objs !! i with
      | None => build_sequence rest objs w
      | Some self =>
          let '(_, (self, w)) := build_extension ext (self, w) in
          build_sequence rest (<[i := self]> objs) w
      end
  end.

End Build.

(** ** [FILTERS]: the class scan of [filters.py] *)

(** A new-style class: its identity, its name and its direct bases. *)
Inductive pyclass : Type :=
  | PyClass (uid : positive) (name : string) (bases : list pyclass).

Definition class_uid (c : pyclass) : positive :=
  match c with PyClass uid _ _ => uid end.

(** The values a module scope binds. *)
Inductive value : Type :=
  | VType (c : pyclass)          (* an instance of [type] *)
  | VClassic (name : string)     (* an old-style class, a [classobj] *)
  | VModule (name : string)
  | VStr (s : string)
  | VList (items : list pyclass)
  | VNone.

(** [a is b] on classes. *)
Definition same_class (a b : pyclass) : bool := Pos.eqb (class_uid a) (class_uid b).

(** [issubclass(c, base)]: [c] is [base] or one of the bases of [c] is a
    subclass of [base]. *)
Fixpoint issubclass (c base : pyclass) : bool :=
  match c with
  | PyClass uid _ bases =>
      Pos.eqb uid (class_uid base) ||
      (fix any (l : list pyclass) : bool :=
         match l with
         | [] => false
         | p :: l' => issubclass p base || any l'
         end) bases
  end.

(** The test of the scan: [isinstance(v, type) and issubclass(v, Filter)
    and v != Filter]. *)
Definition is_filter (Filter : pyclass) (v : value) : bool :=
  match v with
  | VType c => issubclass c Filter && negb (same_class c Filter)
  | _ => false
  end.

(** The loop over [__locals__copy.iteritems()]. *)
Definition FILTERS (Filter : pyclass) (scope : gmap string value) : list value :=
  foldl (fun acc kv => if is_filter Filter (snd kv) then acc ++ [snd kv] else acc)
        [] (map_to_list scope).

(** ** Reference definitions and sample hosts

    The functions the statements below compare the code with, and the
    concrete providers, build hosts and scopes the examples run on. *)

(** Keeping the first occurrence of every element, at its place. *)
Fixpoint first_occurrences (l : list string) : list string :=
  match l with
  | [] => []
  | x :: r => x :: filter (fun y => y ≠ x) (first_occurrences r)
  end.

(** The loop of [uniq] started with [seen] and [res]. *)
Fixpoint fresh_only (seen : gset string) (l : list string) : list string :=
  match l with
  | [] => []
  | x :: r =>
      if decide (x ∈ seen) then fresh_only seen r
      else x :: fresh_only ({[x]} ∪ seen) r
  end.

(** What one token contributes to the bucket [key]. *)
Definition routed (key token : string) : option string :=
  match flag_map !! Py.take 2 token with
  | Some bucket => if decide (bucket = key) then Some (Py.drop 2 token) else None
  | None => if decide ("extra_compile_args" = key) then Some token else None
  end.

(** The bucket a dictionary holds for a list of entries: no key when no
    token was routed there. *)
Definition bucket_of (items : list string) : option (list string) :=
  match items with
  | [] => None
  | _ => Some (first_occurrences items)
  end.

(** A provider that reports the package as missing. *)
Definition popen_missing (cmd : list string) : result completed :=
  Ok {| output := "Package was not found in the pkg-config search path."; returncode := 1 |}.

Definition modversion_cmd : list string := ["pkg-config"; "--modversion"; "bob"].
Definition variable_cmd (name : string) : list string :=
  ["pkg-config"; "--variable=" +:+ name; "bob"].

(** A provider that knows the package [bob] but prints a blank version. *)
Definition popen_blank_version (cmd : list string) : result completed :=
  if decide (cmd = modversion_cmd) then Ok {| output := newline; returncode := 0 |}
  else Ok {| output := "/usr/lib" +:+ newline; returncode := 0 |}.

Definition blank_version_record : gmap string (option string) :=
  <["base_includedir" := Some "/usr/lib"]>
    (<["base_libdir" := Some "/usr/lib"]>
       (<["version" := Some ""]> ∅)).

(** The example of the design document: a toolbox installed under [/usr],
    staged under [/stage]. *)
Definition popen_core (cmd : list string) : result completed :=
  Ok {| output := "-I/usr/local/include -L/usr/local/lib -lbob_core" +:+ newline;
        returncode := 0 |}.

Definition BOB_usr : gmap string (option string) :=
  <["base_includedir" := Some "/usr/include/"]>
    (<["base_libdir" := Some "/usr/lib"]>
       (<["version" := Some "1.2.0"]> ∅)).

(** A provider that exits with status 1 after printing bytes that are
    not UTF-8. *)
Definition run_undecodable (cmd : list string) : result captured :=
  Ok {| decoded := Raise (UnicodeDecodeError
                            "'utf-8' codec can't decode byte 0xff in position 0");
        exit_status := 1 |}.

(** A provider that exits with status 1 after printing a plain message. *)
Definition run_missing (cmd : list string) : result captured :=
  Ok {| decoded := Ok "Package was not found in the pkg-config search path.";
        exit_status := 1 |}.

(** A provider that exits with status 0 after printing a no-break space,
    a next-line character and a line feed. *)
Definition run_blank (cmd : list string) : result captured :=
  Ok {| decoded := Ok (String (ascii_of_nat 160) (String (ascii_of_nat 133) newline));
        exit_status := 0 |}.

(** A provider that knows the version of [bob]; its variable queries exit
    with status 1, after a plain message or after bytes that are not
    UTF-8. *)
Definition run_no_dirs (cmd : list string) : result captured :=
  if decide (cmd = modversion_cmd)
  then Ok {| decoded := Ok ("1.2.0" +:+ newline); exit_status := 0 |}
  else Ok {| decoded := Ok "Variable not defined"; exit_status := 1 |}.

Definition run_no_dirs_undecodable (cmd : list string) : result captured :=
  if decide (cmd = modversion_cmd)
  then Ok {| decoded := Ok ("1.2.0" +:+ newline); exit_status := 0 |}
  else run_undecodable cmd.

(** A build host whose linker accepts the capability flag, and one on
    which the linker cannot be started. *)
Definition mkstemp_demo (fs : gset string) : string := "/tmp/tmpk3v9qz".

Definition spawn_ok (cmd : list string) (fs : gset string)
    : result completed * gset string :=
  (Ok {| output := ""; returncode := 0 |}, fs).

Definition spawn_missing (cmd : list string) (fs : gset string)
    : result completed * gset string :=
  (Raise (OSError "[Errno 2] No such file or directory"), fs).

Definition base_ok (self : build_ext) (ext : Extension) (fs : gset string)
    : result (gset string) := Ok fs.

Definition world0 : world :=
  {| files := ∅; temps := []; probes := []; base_calls := [] |}.

Definition cc : CCompiler :=
  {| linker_so := ["gcc"; "-shared"; "-L/opt/stale/lib"; "-pthread"];
     dll_libraries := None |}.

Definition ext_demo (name lib : string) : Extension :=
  {| ext_name := name; sources := []; language := "c++";
     include_dirs := ["/numpy/include"]; library_dirs := [];
     runtime_library_dirs := []; libraries := [lib] |}.

Definition demo_exts : list Extension :=
  [ext_demo "bob.core._core" "bob_core"; ext_demo "bob.io._io" "bob_io"].

Definition demo_run : result unit * (build_ext * world) :=
  build_extensions mkstemp_demo spawn_ok base_ok demo_exts (build_ext_init cc, world0).

(** [mkstemp] never names a file that is there. *)
Definition mkstemp_next (fs : gset string) : string :=
  if decide ("/tmp/tmpk3v9qz" ∈ fs) then "/tmp/tmpw0x1yc" else "/tmp/tmpk3v9qz".

(** One process, two command objects, one build on each. *)
Definition two_commands : list build_ext * world :=
  build_sequence mkstemp_next spawn_ok base_ok
    [(0%nat, ext_demo "bob.core._core" "bob_core"); (1%nat, ext_demo "bob.io._io" "bob_io")]
    [build_ext_init cc; build_ext_init cc] world0.

(** One process, one command object, two builds, on a host on which the
    linker cannot be started: the first build raises and the caller goes
    on to the second. *)
Definition retried_command : list build_ext * world :=
  build_sequence mkstemp_next spawn_missing base_ok
    [(0%nat, ext_demo "bob.core._core" "bob_core"); (0%nat, ext_demo "bob.io._io" "bob_io")]
    [build_ext_init cc] world0.

Definition class_bases (c : pyclass) : list pyclass :=
  match c with PyClass _ _ bases => bases end.

(** Induction on a class with the hypothesis for all its bases. *)
Fixpoint pyclass_bases_ind (P : pyclass → Prop)
    (step : ∀ uid name bases, Forall P bases → P (PyClass uid name bases))
    (c : pyclass) : P c :=
  match c with
  | PyClass uid name bases =>
      step uid name bases
        ((fix all (l : list pyclass) : Forall P l :=
            match l with
            | [] => List.Forall_nil P
            | p :: l' => List.Forall_cons P p l' (pyclass_bases_ind P step p) (all l')
            end) bases)
  end.

(** The subtype relation: a class descends from [base] when it is
    [base] or one of its direct bases descends from [base]. *)
Inductive descends (base : pyclass) : pyclass → Prop :=
  | descends_self c : class_uid c = class_uid base → descends base c
  | descends_base c p : p ∈ class_bases c → descends base p → descends base c.

(** The classes of [filters.py] and the scope its scan reads: the names
    bound at module level when [dict(locals())] is taken. *)
Definition object_class : pyclass := PyClass 1 "object" [].
Definition Filter_class : pyclass := PyClass 2 "Filter" [object_class].
Definition Crop_class : pyclass := PyClass 3 "Crop" [Filter_class].

Definition filters_scope : gmap string value :=
  <["FILTERS" := VList []]>
    (<["Crop" := VType Crop_class]>
       (<["Filter" := VType Filter_class]>
          (<["torch" := VModule "torch"]>
             (<["__doc__" := VStr "This module contains the definitions of filters"]>
                {["__name__" := VStr "filters"]})))).

(** A second variant, derived from [Crop]. *)
Definition CenterCrop_class : pyclass := PyClass 4 "CenterCrop" [Crop_class].

(** ** Module level of [setup.py]: requirements, extensions, data files *)

(** [a < b] and [a <= b] on two-component version tuples. *)
Definition tuple_lt (a b : nat * nat) : bool :=
  (fst a <? fst b)%nat || ((fst a =? fst b)%nat && (snd a <? snd b)%nat).

Definition tuple_le (a b : nat * nat) : bool :=
  (fst a <? fst b)%nat || ((fst a =? fst b)%nat && (snd a <=? snd b)%nat).

(** What [pkg_resources.require('pillow')] does. *)
Inductive require_outcome : Type :=
  | Distribution_found
  | DistributionNotFound
  | Require_raises (e : exn).

(** The list [EXTRA_REQUIREMENTS] once the two module-level tests have
    run; an exception other than [DistributionNotFound] leaves the
    module. *)
Definition EXTRA_REQUIREMENTS (version_info : nat * nat) (require_pillow : require_outcome)
    : result (list string) :=
  let reqs := [] in
  let reqs :=
    if tuple_lt version_info (2, 7)%nat
       || (tuple_le (3, 0)%nat version_info && tuple_lt version_info (3, 2)%nat)
    then reqs ++ ["argparse"] else reqs in
  match require_pillow with
  | Distribution_found => Ok (reqs ++ ["pillow"])
  | DistributionNotFound => Ok (reqs ++ ["pil"])
  | Require_raises e => Raise e
  end.

(** The [install_requires] argument of [setup(...)]. *)
Definition install_requires (extra : list string) : list string :=
  ["setuptools"; "numpy"; "matplotlib"; "sqlalchemy"; "scipy"] ++ extra.

(** The ten calls of the list display [EXTENSIONS = [...]]. *)
Definition core_extensions : list (string * string) :=
  [("bob.core._core", "bob-core-py");
   ("bob.core.random._core_random", "bob-core-random-py");
   ("bob.io._io", "bob-io-py");
   ("bob.math._math", "bob-math-py");
   ("bob.measure._measure", "bob-measure-py");
   ("bob.sp._sp", "bob-sp-py");
   ("bob.ip._ip", "bob-ip-py");
   ("bob.ap._ap", "bob-ap-py");
   ("bob.machine._machine", "bob-machine-py");
   ("bob.trainer._trainer", "bob-trainer-py")].

(** The hand-picked entries added to [DATAFILES], and those of the
    visioner. *)
Definition handpicked_datafiles : list string :=
  ["db/iris/iris.names"; "db/iris/iris.data"; "io/fonts/*.txt"; "io/fonts/*.ttf"].

Definition visioner_datafiles : list string :=
  ["visioner/detection.gz"; "visioner/localization.gz"].

Section ModuleLevel.

Variable popen : list string → result completed.
Variable DESTDIR : string.
Variable BOB : gmap string (option string).
Variable version_info : nat * nat.
Variable path_exists : string → bool.
Variable platform_system : string.
Variable numpy_include : string.

(** The elements of a list display, evaluated from left to right. *)
Fixpoint setup_extensions (l : list (string * string)) : result (list Extension) :=
  match l with
  | [] => mret []
  | (ext_name, pc_file) :: rest =>
      ext ← setup_extension popen DESTDIR BOB version_info path_exists
              platform_system numpy_include ext_name pc_file;
      exts ← setup_extensions rest;
      mret (ext :: exts)
  end.

(** [EXTENSIONS] and [DATAFILES] as the call of [setup(...)] receives
    them; [found] is what [find_all_test_data()] returned. *)
Definition EXTENSIONS_DATAFILES (found : list string)
    : result (list Extension * list string) :=
  let DATAFILES := found in
  let DATAFILES := DATAFILES ++ handpicked_datafiles in
  EXTENSIONS ← setup_extensions core_extensions;
  visioner ← pkgconfig popen "bob-visioner";
  if negb (bool_decide (visioner = ∅)) then
    ext ← setup_extension popen DESTDIR BOB version_info path_exists
            platform_system numpy_include "bob.visioner._visioner" "bob-visioner-py";
    mret (EXTENSIONS ++ [ext], DATAFILES ++ visioner_datafiles)
  else mret (EXTENSIONS, DATAFILES).

End ModuleLevel.

(** ** [find_all_test_data]: the test data shipped with the package *)

(** [s.replace(old, new)]: the occurrences of [old] are replaced from
    left to right, without overlap; [skip] counts the characters of the
    occurrence just replaced that are still to be passed. *)
Fixpoint replace_aux (skip : nat) (old new s : string) : string :=
  match s with
  | EmptyString =>
      match skip, old with
      | O, EmptyString => new
      | _, _ => EmptyString
      end
  | String c s' =>
      match skip with
      | S k => replace_aux k old new s'
      | O =>
          if Py.startswith old s then
            match old with
            | EmptyString => new +:+ String c (replace_aux 0 old new s')
            | String _ old' => new +:+ replace_aux (String.length old') old new s'
            end
          else String c (replace_aux 0 old new s')
      end
  end.

Definition str_replace (old new s : string) : string := replace_aux 0 old new s.

Section TestData.

Variable PACKAGE_BASEDIR : string.              (* os.path.dirname(os.path.abspath(__file__)) *)
Variable listdir : string → result (list string).   (* os.listdir *)
Variable isdir : string → bool.                 (* os.path.isdir *)
Variable path_exists : string → bool.           (* os.path.exists *)

(** [os.walk(path)]: the triples it yields, in order. *)
Variable walk : string → list (string * list string * list string).

(** The nested helper [add_data(l, path)]. *)
Definition add_data (l : list string) (path : string) : list string :=
  let remove := Py.path_join PACKAGE_BASEDIR "bob" +:+ "/" in
  foldl (fun l '(sub_path, dirs, files) =>
           foldl (fun l f => l ++ [str_replace remove "" (Py.path_join sub_path f)]) l files)
        l (walk path).

(** The body of the loop over the entries of one package directory. *)
Definition scan_subdir (pack : string) (retval : list string) (subdir : string)
    : list string :=
  if String.eqb subdir "test" then
    let test_path :=
      Py.path_join (Py.path_join (Py.path_join (Py.path_join PACKAGE_BASEDIR "bob") pack)
                      "test") "data" in
    if path_exists test_path then add_data retval test_path else retval
  else retval.

(** The loop over the entries of the package directory. *)
Fixpoint scan_packages (package_dir : string) (packs : list string) (retval : list string)
    : result (list string) :=
  match packs with
  | [] => mret retval
  | pack :: rest =>
      let sub_package_dir := Py.path_join package_dir pack in
      if negb (isdir sub_package_dir) then scan_packages package_dir rest retval
      else
        subdirs ← listdir sub_package_dir;
        scan_packages package_dir rest (foldl (scan_subdir pack) retval subdirs)
  end.

Definition find_all_test_data : result (list string) :=
  let retval := [] in
  let package_dir := Py.path_join PACKAGE_BASEDIR "bob" in
  packs ← listdir package_dir;
  scan_packages package_dir packs retval.

End TestData.

(** ** [Crop.__call__] of [filters.py] *)

(** The values of the command line: [options.x], [options.y],
    [options.w], [options.h]. *)
Record crop_options : Type := mkCropOptions {
  opt_x : Z;
  opt_y : Z;
  opt_w : Z;
  opt_h : Z;
}.

(** The exceptions the call can raise by itself. *)
Inductive crop_error : Type :=
  | Crop_RuntimeError (msg : string)
  | Crop_IndexError.

Definition dquote : string := String (ascii_of_nat 34) EmptyString.

Section Crop.

(** The image library: the pixels of an image, what a fresh image holds
    after [load(path)], the integer options of a fresh [ipCrop], and
    [process], which gives the output of the filter or fails. *)
Variable image : Type.
Variable load : string → image.
Variable ipCrop_defaults : gmap string Z.
Variable process : gmap string Z → image → option image.

(** The [Crop] instance ([self.filter], with its integer options) and
    the images saved so far. *)
Record crop_state : Type := mkCropState {
  self_filter : option (gmap string Z);
  saved : list (string * image);
}.

Definition Crop_call (options : crop_options) (args : list string) (st : crop_state)
    : option crop_error * crop_state :=
  let filter := ipCrop_defaults in
  let filter := <["x" := opt_x options]> filter in
  let filter := <["y" := opt_y options]> filter in
  let filter := <["w" := opt_w options]> filter in
  let filter := <["h" := opt_h options]> filter in
  let st := {| self_filter := Some filter; saved := saved st |} in
  match args !! 0%nat with
  | None => (Some Crop_IndexError, st)
  | Some source =>
      let input := load source in
      match process filter input with
      | None =>
          (Some (Crop_RuntimeError
                   ("Processing of " +:+ dquote +:+ source +:+ dquote +:+ " has failed")),
           st)
      | Some out =>
          match args !! 1%nat with
          | None => (Some Crop_IndexError, st)
          | Some target =>
              (None, {| self_filter := Some filter; saved := saved st ++ [(target, out)] |})
          end
      end
  end.

End Crop.

(** The descriptor of [bob.core._core] on the sample host, without a
    caging root. *)
Definition core_descriptor : Extension :=
  {| ext_name := "bob.core._core"; sources := []; language := "c++";
     include_dirs := ["/usr/local/include"; "/numpy/include"];
     library_dirs := ["/usr/local/lib"];
     runtime_library_dirs := ["/usr/local/lib"];
     libraries := ["bob_core"] |}.

(** A compiler object whose [dll_libraries] attribute is [None], and one
    build with it on the sample host. *)
Definition cc_cygwin : CCompiler :=
  {| linker_so := ["gcc"; "-shared"; "-L/opt/stale/lib"]; dll_libraries := Some None |}.

Definition single_build : result unit * (build_ext * world) :=
  build_extension mkstemp_demo spawn_ok base_ok (ext_demo "bob.core._core" "bob_core")
    (build_ext_init cc_cygwin, world0).

(** The module level on the sample host, where the provider answers every
    query alike. *)
Definition demo_module : result (list Extension * list string) :=
  EXTENSIONS_DATAFILES popen_core "" BOB_usr (2%nat, 7%nat) (fun _ => true)
    "Linux" "/numpy/include" ["core/test/data/test.hdf5"].

Definition demo_module_value : list Extension * list string :=
  match demo_module with
  | Ok v => v
  | Raise _ => ([], [])
  end.

(** A source tree with two packages, one of which has test data. *)
Definition demo_listdir (path : string) : result (list string) :=
  if decide (path = "/src/bob") then Ok ["io"; "README.rst"; "core"]
  else if decide (path = "/src/bob/io") then Ok ["__init__.py"; "test"]
  else if decide (path = "/src/bob/core") then Ok ["__init__.py"]
  else Raise (OSError "[Errno 20] Not a directory").

Definition demo_isdir (path : string) : bool :=
  bool_decide (path = "/src/bob/io") || bool_decide (path = "/src/bob/core").

Definition demo_walk (path : string) : list (string * list string * list string) :=
  if decide (path = "/src/bob/io/test/data") then
    [("/src/bob/io/test/data", ["fonts"], ["img.pgm"]);
     ("/src/bob/io/test/data/fonts", [], ["a.ttf"])]
  else [].

Definition demo_subdirs (pack : string) : list string :=
  if decide (pack = "io") then ["__init__.py"; "test"] else ["__init__.py"].

(** * Properties *)

(** ** The string primitives on sample inputs *)

Example split_ex :
  Py.split ("  -Ia  -lm" +:+ newline +:+ " -O2 ") = ["-Ia"; "-lm"; "-O2"].
Proof. reflexivity. Qed.

Example strip_ex : Py.strip ("  1.2.0" +:+ newline) = "1.2.0".
Proof. reflexivity. Qed.

Example slices_ex : Py.take 2 "-Ia" = "-I" ∧ Py.drop 2 "-Ia" = "a" ∧ Py.take 2 "-" = "-".
Proof. by vm_compute. Qed.

Example strip_sep_ex :
  Py.lstrip_char Py.sep "//usr/lib/" = "usr/lib/"
  ∧ Py.strip_char Py.sep "//usr/include//" = "usr/include".
Proof. by vm_compute. Qed.

Example find_ex :
  Py.find "CYGWIN_NT-10.0" "CYGWIN" = 0 ∧ Py.find "Linux" "CYGWIN" = -1
  ∧ Py.find "a-Lb" "-L" = 1.
Proof. by vm_compute. Qed.

Example path_join_ex :
  Py.path_join "/stage" "usr/lib" = "/stage/usr/lib"
  ∧ Py.path_join "/stage/" "usr/lib" = "/stage/usr/lib"
  ∧ Py.path_join "/stage" "/usr/lib" = "/usr/lib".
Proof. by vm_compute. Qed.

Example package_name_ex :
  "bob-core-py" +:+ pretty 2%nat +:+ pretty 7%nat = "bob-core-py27"
  ∧ "bob-core-py" +:+ pretty 3%nat +:+ pretty 0%nat = "bob-core-py30".
Proof. by vm_compute. Qed.

Example ld_ok_ex : map ld_ok ["-L/usr/lib"; "-lm"; "-shared"; "x-L"] = [false; true; true; true].
Proof. reflexivity. Qed.

(** ** The flag classifier *)

Lemma uniq_loop (l : list string) (seen : gmap string Z) (res : list string) :
  snd (foldl (uniq_step (fun x => x)) (seen, res) l) = res ++ fresh_only (dom seen) l.
Proof.
  revert seen res. induction l as [|x r IH]; intros seen res; simpl.
  - by rewrite app_nil_r.
  - destruct (seen !! x) as [z|] eqn:Hx.
    + rewrite IH. rewrite decide_True; [done|]. apply elem_of_dom; eauto.
    + rewrite IH. rewrite decide_False.
      * rewrite dom_insert_L. by rewrite <- app_assoc.
      * intros [z Hz]%elem_of_dom. congruence.
Qed.

Lemma fresh_only_filter (seen : gset string) (l : list string) :
  fresh_only seen l = filter (fun y => y ∉ seen) (first_occurrences l).
Proof.
  revert seen. induction l as [|x r IH]; intros seen; simpl; [done|].
  destruct (decide (x ∈ seen)) as [Hin|Hnin].
  - rewrite filter_cons_False by (intros H; by apply H).
    rewrite list_filter_filter, IH. apply list_filter_iff.
    intros y. split; [|tauto]. intros Hy. split; [done|]. intros ->. done.
  - rewrite filter_cons_True by done. f_equal.
    rewrite list_filter_filter, IH. apply list_filter_iff.
    intros y. set_solver.
Qed.

Lemma uniq_first_occurrences (l : list string) : uniq l = first_occurrences l.
Proof.
  unfold uniq, uniq_by. rewrite uniq_loop, dom_empty_L, fresh_only_filter. simpl.
  induction (first_occurrences l) as [|y k IH]; [done|].
  rewrite filter_cons_True by set_solver. by rewrite IH.
Qed.

Lemma first_occurrences_elem (l : list string) (x : string) :
  x ∈ first_occurrences l ↔ x ∈ l.
Proof.
  induction l as [|y r IH]; simpl; [done|].
  rewrite !elem_of_cons, list_elem_of_filter, IH.
  destruct (decide (x = y)); naive_solver.
Qed.

Lemma first_occurrences_NoDup (l : list string) : NoDup (first_occurrences l).
Proof.
  induction l as [|y r IH]; simpl; [constructor|].
  apply NoDup_cons. split.
  - rewrite list_elem_of_filter. naive_solver.
  - by apply NoDup_filter.
Qed.

Lemma first_occurrences_sublist (l : list string) : sublist (first_occurrences l) l.
Proof.
  induction l as [|y r IH]; simpl; [constructor|].
  constructor. etrans; [apply sublist_filter|done].
Qed.

Lemma first_occurrences_nil (l : list string) : first_occurrences l = [] ↔ l = [].
Proof. destruct l; simpl; split; congruence. Qed.

Lemma setdefault_append_lookup (key item k : string) (kw : gmap string (list string)) :
  setdefault_append key item kw !! k =
    if decide (key = k) then Some (default [] (kw !! k) ++ [item]) else kw !! k.
Proof.
  unfold setdefault_append. rewrite lookup_insert.
  destruct (decide (key = k)) as [->|]; done.
Qed.

Lemma classify_token_lookup (kw : gmap string (list string)) (token k : string) :
  classify_token kw token !! k =
    match routed k token with
    | Some item => Some (default [] (kw !! k) ++ [item])
    | None => kw !! k
    end.
Proof.
  unfold classify_token, routed.
  destruct (flag_map !! Py.take 2 token) as [bucket|];
    rewrite setdefault_append_lookup; by case_decide.
Qed.

Lemma classify_loop_lookup (tokens : list string) (kw : gmap string (list string)) (k : string) :
  foldl classify_token kw tokens !! k =
    match omap (routed k) tokens with
    | [] => kw !! k
    | items => Some (default [] (kw !! k) ++ items)
    end.
Proof.
  revert kw. induction tokens as [|t ts IH]; intros kw; csimpl; [done|].
  rewrite IH, classify_token_lookup.
  destruct (routed k t) as [item|]; csimpl; [|done].
  destruct (omap (routed k) ts) as [|i is']; csimpl; [done|].
  by rewrite <- app_assoc.
Qed.

Lemma flag_map_lookup (p : string) :
  flag_map !! p =
    if decide (p = "-l") then Some "libraries"
    else if decide (p = "-L") then Some "library_dirs"
    else if decide (p = "-I") then Some "include_dirs"
    else None.
Proof.
  unfold flag_map. rewrite !lookup_insert, lookup_empty.
  repeat case_decide; congruence.
Qed.

Lemma routed_flag (prefix key : string) (tokens : list string) :
  flag_map !! prefix = Some key →
  (∀ p, flag_map !! p = Some key → p = prefix) →
  key ≠ "extra_compile_args" →
  omap (routed key) tokens =
    map (Py.drop 2) (filter (fun t => Py.take 2 t = prefix) tokens).
Proof.
  intros Hp Hinj Hne. induction tokens as [|t ts IH]; csimpl; [done|].
  destruct (decide (Py.take 2 t = prefix)) as [Heq|Hneq].
  - rewrite filter_cons_True by done. csimpl. rewrite <- IH.
    unfold routed at 1. rewrite Heq, Hp. by rewrite decide_True.
  - rewrite filter_cons_False by done. rewrite <- IH.
    unfold routed at 1. destruct (flag_map !! Py.take 2 t) as [bucket|] eqn:Hb.
    + destruct (decide (bucket = key)) as [->|Hk]; [|done].
      by destruct Hneq; apply Hinj.
    + destruct (decide ("extra_compile_args" = key)); [congruence|done].
Qed.

Lemma routed_extra (tokens : list string) :
  omap (routed "extra_compile_args") tokens =
    filter (fun t => flag_map !! Py.take 2 t = None) tokens.
Proof.
  induction tokens as [|t ts IH]; csimpl; [done|].
  unfold routed at 1. destruct (flag_map !! Py.take 2 t) as [bucket|] eqn:Hb.
  - rewrite filter_cons_False by (rewrite Hb; done).
    destruct (decide (bucket = "extra_compile_args")) as [->|]; [|done].
    rewrite flag_map_lookup in Hb. repeat case_decide; congruence.
  - rewrite filter_cons_True by done. by rewrite IH.
Qed.

Lemma routed_other (key : string) (tokens : list string) :
  key ∉ ["include_dirs"; "library_dirs"; "libraries"; "extra_compile_args"] →
  omap (routed key) tokens = [].
Proof.
  intros Hk. induction tokens as [|t ts IH]; csimpl; [done|].
  rewrite IH. unfold routed. rewrite flag_map_lookup.
  repeat case_decide; subst; try done; exfalso; apply Hk; set_solver.
Qed.

Lemma classify_lookup (tokens : list string) (k : string) :
  classify tokens !! k = bucket_of (omap (routed k) tokens).
Proof.
  unfold classify. rewrite lookup_fmap, classify_loop_lookup, lookup_empty.
  destruct (omap (routed k) tokens) as [|i is']; simpl; [done|].
  by rewrite uniq_first_occurrences.
Qed.

Lemma bucket_of_Some (items v : list string) :
  bucket_of items = Some v → NoDup v ∧ v ≠ [] ∧ sublist v items.
Proof.
  destruct items as [|i is']; [done|]. intros [= <-]. split_and!.
  - apply (first_occurrences_NoDup (i :: is')).
  - done.
  - apply (first_occurrences_sublist (i :: is')).
Qed.

(** C1.  For every list of tokens, [classify] puts under [include_dirs],
    [library_dirs] and [libraries] the remainders (after the two-character
    prefix) of the tokens that start with [-I], [-L] and [-l], puts every
    other token unchanged under [extra_compile_args], and leaves in each
    bucket the first occurrence of every entry, in the order of arrival
    and without duplicates; no other bucket exists, and the tokens
    [-Ia -Ib -Ia] give the include directories [a; b]. *)
Theorem classify_buckets (tokens : list string) :
  let flagged p := map (Py.drop 2) (filter (fun t => Py.take 2 t = p) tokens) in
  let others := filter (fun t => Py.take 2 t ∉ ["-I"; "-L"; "-l"]) tokens in
  classify tokens !! "include_dirs" = bucket_of (flagged "-I")
  ∧ classify tokens !! "library_dirs" = bucket_of (flagged "-L")
  ∧ classify tokens !! "libraries" = bucket_of (flagged "-l")
  ∧ classify tokens !! "extra_compile_args" = bucket_of others
  ∧ (∀ k, k ∉ ["include_dirs"; "library_dirs"; "libraries"; "extra_compile_args"] →
          classify tokens !! k = None)
  ∧ (∀ k v, classify tokens !! k = Some v →
            NoDup v ∧ v = first_occurrences (omap (routed k) tokens))
  ∧ (∀ l, uniq l = first_occurrences l ∧ NoDup (uniq l) ∧ sublist (uniq l) l
          ∧ ∀ x, x ∈ uniq l ↔ x ∈ l)
  ∧ classify ["-Ia"; "-Ib"; "-Ia"] !! "include_dirs" = Some ["a"; "b"].
Proof.
  intros flagged others. split_and!.
  - rewrite classify_lookup. unfold flagged.
    rewrite (routed_flag "-I"); [done|done| |done].
    intros p. rewrite flag_map_lookup. repeat case_decide; congruence.
  - rewrite classify_lookup. unfold flagged.
    rewrite (routed_flag "-L"); [done|done| |done].
    intros p. rewrite flag_map_lookup. repeat case_decide; congruence.
  - rewrite classify_lookup. unfold flagged.
    rewrite (routed_flag "-l"); [done|done| |done].
    intros p. rewrite flag_map_lookup. repeat case_decide; congruence.
  - rewrite classify_lookup, routed_extra. unfold others. f_equal.
    apply list_filter_iff. intros t. rewrite flag_map_lookup.
    rewrite !not_elem_of_cons.
    repeat case_decide; (split; [intros Ht|intros (? & ? & ? & _)]);
      try done; split_and!; try congruence; apply not_elem_of_nil.
  - intros k Hk. by rewrite classify_lookup, routed_other.
  - intros k v. rewrite classify_lookup. intros Hv.
    destruct (bucket_of_Some _ _ Hv) as (Hnd & _ & _). split; [done|].
    destruct (omap (routed k) tokens); [done|]. by injection Hv.
  - intros l. rewrite uniq_first_occurrences. split_and!.
    + done.
    + apply first_occurrences_NoDup.
    + apply first_occurrences_sublist.
    + apply first_occurrences_elem.
  - by vm_compute.
Qed.

Lemma classify_buckets_witness :
  classify ["-Ia"; "-Ib"; "-Ia"; "-O2"; "-lm"] !! "runtime_library_dirs" = None
  ∧ NoDup ["a"; "b"]
  ∧ ["a"; "b"] = first_occurrences (omap (routed "include_dirs")
                                       ["-Ia"; "-Ib"; "-Ia"; "-O2"; "-lm"]).
Proof.
  pose proof (classify_buckets ["-Ia"; "-Ib"; "-Ia"; "-O2"; "-lm"])
    as (_ & _ & _ & _ & Hother & Hdedup & _).
  split.
  - apply Hother. apply (bool_decide_unpack _). vm_compute. exact I.
  - apply (Hdedup "include_dirs"). vm_compute. reflexivity.
Defined.

(** ** The package query *)

Lemma pkgconfig_nonzero popen package proc :
  popen ["pkg-config"; "--libs"; "--cflags"; package] = Ok proc →
  returncode proc ≠ 0 →
  pkgconfig popen package = Ok ∅.
Proof.
  intros Hp Hrc. unfold pkgconfig. rewrite Hp. simpl.
  by apply Z.eqb_neq in Hrc as ->.
Qed.

Lemma pkgconfig_zero popen package proc :
  popen ["pkg-config"; "--libs"; "--cflags"; package] = Ok proc →
  returncode proc = 0 →
  pkgconfig popen package = Ok (classify (Py.split (output proc))).
Proof.
  intros Hp Hrc. unfold pkgconfig. rewrite Hp. simpl. by rewrite Hrc.
Qed.

Lemma pkgconfig_raise popen package e :
  popen ["pkg-config"; "--libs"; "--cflags"; package] = Raise e →
  pkgconfig popen package = Raise e.
Proof. intros Hp. unfold pkgconfig. by rewrite Hp. Qed.

(** Any dictionary [pkgconfig] returns has no empty bucket. *)
Lemma pkgconfig_bucket_nonempty popen package pc k v :
  pkgconfig popen package = Ok pc → pc !! k = Some v → v ≠ [].
Proof.
  unfold pkgconfig.
  destruct (popen _) as [proc|e]; simpl; [|done].
  destruct (returncode proc =? 0); simpl; intros [= <-].
  - rewrite classify_lookup. intros Hv. by apply bucket_of_Some in Hv as (_ & ? & _).
  - by rewrite lookup_empty.
Qed.

(** The two steps of [capture]. *)
Lemma capture_Ok run cmd raw text :
  run cmd = Ok raw → decoded raw = Ok text →
  capture run cmd = Ok {| output := text; returncode := exit_status raw |}.
Proof. intros Hr Hd. unfold capture. rewrite Hr. simpl. by rewrite Hd. Qed.

Lemma capture_undecodable run cmd raw e :
  run cmd = Ok raw → decoded raw = Raise e → capture run cmd = Raise e.
Proof. intros Hr Hd. unfold capture. rewrite Hr. simpl. by rewrite Hd. Qed.

Lemma capture_raise run cmd e : run cmd = Raise e → capture run cmd = Raise e.
Proof. intros Hr. unfold capture. by rewrite Hr. Qed.

(** C2, as stated, fails twice over.  On a non-zero exit status the
    dictionary that comes back holds no bucket at all, so the four buckets
    are not present-and-empty.  And the output is decoded before the status
    is looked at, so a provider that exits with a non-zero status after
    printing bytes that are not UTF-8 makes [pkgconfig] raise. *)
Lemma pkgconfig_nonzero_not_as_stated :
  ¬ (∃ kw, pkgconfig (capture run_missing) "bob-visioner" = Ok kw
           ∧ kw !! "include_dirs" = Some []
           ∧ kw !! "library_dirs" = Some []
           ∧ kw !! "libraries" = Some []
           ∧ kw !! "extra_compile_args" = Some [])
  ∧ (∃ raw e,
       run_undecodable ["pkg-config"; "--libs"; "--cflags"; "bob-visioner"] = Ok raw
       ∧ exit_status raw ≠ 0
       ∧ pkgconfig (capture run_undecodable) "bob-visioner" = Raise e).
Proof.
  split.
  - intros (kw & Hkw & Hi & _).
    rewrite (pkgconfig_nonzero _ _ _ eq_refl) in Hkw by done.
    injection Hkw as <-. by rewrite lookup_empty in Hi.
  - eexists _, _. split_and!; [reflexivity|done|reflexivity].
Qed.

(** C2, amended.  When the provider exits with a non-zero status and
    what it printed decodes, [pkgconfig] returns (it does not raise, and
    its value is a dictionary, not [None]) the empty dictionary: no bucket
    is present, and reading any bucket with an empty-list default gives the
    empty list.  The output is decoded before the status is looked at:
    when it does not decode, [pkgconfig] raises the decoding error. *)
Theorem pkgconfig_nonzero_exit run package raw :
  run ["pkg-config"; "--libs"; "--cflags"; package] = Ok raw →
  exit_status raw ≠ 0 →
  (∀ text, decoded raw = Ok text →
     ∃ kw, pkgconfig (capture run) package = Ok kw
           ∧ kw = ∅
           ∧ ∀ k, kw !! k = None ∧ default [] (kw !! k) = [])
  ∧ (∀ e, decoded raw = Raise e → pkgconfig (capture run) package = Raise e).
Proof.
  intros Hr Hrc. split.
  - intros text Hd. exists ∅. split.
    + eapply pkgconfig_nonzero; [by eapply capture_Ok|done].
    + split; [done|]. intros k. by rewrite lookup_empty.
  - intros e Hd. apply pkgconfig_raise. by eapply capture_undecodable.
Qed.

Lemma pkgconfig_nonzero_exit_witness :
  (∃ kw, pkgconfig (capture run_missing) "bob-visioner" = Ok kw
         ∧ kw = ∅
         ∧ ∀ k, kw !! k = None ∧ default [] (kw !! k) = [])
  ∧ pkgconfig (capture run_undecodable) "bob-visioner"
    = Raise (UnicodeDecodeError "'utf-8' codec can't decode byte 0xff in position 0").
Proof.
  split.
  - apply (proj1 (pkgconfig_nonzero_exit run_missing "bob-visioner"
                    {| decoded := Ok "Package was not found in the pkg-config search path.";
                       exit_status := 1 |} eq_refl ltac:(simpl; lia))
             "Package was not found in the pkg-config search path.").
    reflexivity.
  - apply (proj2 (pkgconfig_nonzero_exit run_undecodable "bob-visioner"
                    {| decoded := Raise (UnicodeDecodeError
                                           "'utf-8' codec can't decode byte 0xff in position 0");
                       exit_status := 1 |} eq_refl ltac:(simpl; lia))).
    reflexivity.
Defined.

(** ** The toolbox record *)

Lemma get_var_unfold popen name :
  get_var popen name =
    match popen (variable_cmd name) with
    | Ok proc =>
        Ok (if returncode proc =? 0 then Some (Py.strip (output proc)) else None)
    | Raise e => Raise e
    end.
Proof.
  unfold get_var, variable_cmd. destruct (popen _) as [proc|e]; simpl; [|done].
  by destruct (returncode proc =? 0).
Qed.

Lemma bob_variables_unfold popen :
  bob_variables popen =
    match popen modversion_cmd with
    | Raise e => Raise e
    | Ok proc =>
        if returncode proc =? 0 then
          libdir ← get_var popen "libdir";
          includedir ← get_var popen "includedir";
          Ok (<["base_includedir" := includedir]>
                (<["base_libdir" := libdir]>
                   (<["version" := Some (Py.strip (output proc))]> ∅)))
        else
          Raise (RuntimeError
                   ("Cannot retrieve Bob version from pkg-config:" +:+ newline
                    +:+ Py.strip (output proc)))
    end.
Proof.
  unfold bob_variables, modversion_cmd.
  destruct (popen _) as [proc|e]; simpl; [|done].
  rewrite lookup_insert_eq. by destruct (returncode proc =? 0).
Qed.

(** C7, as stated, fails in its converse half: a record is produced
    with an empty version string when the [--modversion] query exits with
    status zero and prints nothing but blanks. *)
Lemma bob_variables_blank_version :
  ¬ (∀ kw, bob_variables popen_blank_version = Ok kw →
           ∃ v, kw !! "version" = Some (Some v) ∧ v ≠ "").
Proof.
  intros H.
  destruct (H blank_version_record) as (v & Hv & Hne).
  - by vm_compute.
  - vm_compute in Hv. congruence.
Qed.

(** C7, amended.  If the [--modversion] query exits with a non-zero
    status, [bob_variables] raises [RuntimeError] and produces no record;
    conversely every record produced comes from a [--modversion] query
    that exited with status zero, holds all three fields, and its version
    is not [None]: it is the stripped output of that query. *)
Theorem bob_variables_version popen :
  (∀ proc, popen modversion_cmd = Ok proc → returncode proc ≠ 0 →
           ∃ msg, bob_variables popen = Raise (RuntimeError msg))
  ∧ (∀ kw, bob_variables popen = Ok kw →
           ∃ proc, popen modversion_cmd = Ok proc
                   ∧ returncode proc = 0
                   ∧ kw !! "version" = Some (Some (Py.strip (output proc)))
                   ∧ is_Some (kw !! "base_libdir")
                   ∧ is_Some (kw !! "base_includedir")).
Proof.
  rewrite bob_variables_unfold. split.
  - intros proc -> Hrc. apply Z.eqb_neq in Hrc as ->. eauto.
  - intros kw. destruct (popen modversion_cmd) as [proc|e]; [|done].
    destruct (returncode proc =? 0) eqn:Hrc; [|done].
    apply Z.eqb_eq in Hrc.
    destruct (get_var popen "libdir") as [libdir|]; simpl; [|done].
    destruct (get_var popen "includedir") as [includedir|]; simpl; [|done].
    intros [= <-]. exists proc. split_and!; [done|done|..].
    + do 2 (rewrite lookup_insert_ne; [|done]). by rewrite lookup_insert_eq.
    + rewrite lookup_insert_ne; [|done]. rewrite lookup_insert_eq. eauto.
    + rewrite lookup_insert_eq. eauto.
Qed.

Lemma bob_variables_version_witness :
  (∃ msg, bob_variables popen_missing = Raise (RuntimeError msg))
  ∧ (∃ proc, popen_blank_version modversion_cmd = Ok proc
             ∧ returncode proc = 0
             ∧ blank_version_record !! "version" = Some (Some (Py.strip (output proc)))
             ∧ is_Some (blank_version_record !! "base_libdir")
             ∧ is_Some (blank_version_record !! "base_includedir")).
Proof.
  split.
  - apply (proj1 (bob_variables_version popen_missing)
             {| output := "Package was not found in the pkg-config search path.";
                returncode := 1 |}).
    + reflexivity.
    + simpl. lia.
  - apply (proj2 (bob_variables_version popen_blank_version)).
    vm_compute. reflexivity.
Defined.

(** ** The extension descriptor *)

Lemma length_zero (s : string) : (String.length s =? 0)%nat = true ↔ s = "".
Proof. destruct s; simpl; split; congruence. Qed.

Section Descriptor.

Variable popen : list string → result completed.
Variable DESTDIR : string.
Variable BOB : gmap string (option string).
Variable version_info : nat * nat.
Variable path_exists : string → bool.
Variable platform_system : string.
Variable numpy_include : string.

Local Abbreviation build :=
  (setup_extension popen DESTDIR BOB version_info path_exists
     platform_system numpy_include).
Local Abbreviation package pc_file :=
  (pc_file +:+ pretty (fst version_info) +:+ pretty (snd version_info)).
Local Abbreviation existing pc key :=
  (filter (fun k => path_exists k = true) (default [] (pc !! key))).

(** A caged build with a complete toolbox record and a package that
    lists libraries returns its descriptor. *)
Lemma setup_extension_caged_run ext pc_file pc libdir includedir libs :
  DESTDIR ≠ "" →
  BOB !! "base_libdir" = Some (Some libdir) →
  BOB !! "base_includedir" = Some (Some includedir) →
  pkgconfig popen (package pc_file) = Ok pc →
  pc !! "libraries" = Some libs →
  build ext pc_file =
    Ok {| ext_name := ext;
          sources := if negb (Py.find platform_system "CYGWIN" =? -1)
                     then ["empty.c"] else [];
          language := "c++";
          include_dirs :=
            (Py.path_join DESTDIR (Py.strip_char Py.sep includedir)
               :: existing pc "include_dirs") ++ [numpy_include];
          library_dirs :=
            Py.path_join DESTDIR (Py.lstrip_char Py.sep libdir)
              :: existing pc "library_dirs";
          runtime_library_dirs :=
            Py.path_join DESTDIR (Py.lstrip_char Py.sep libdir)
              :: existing pc "library_dirs";
          libraries := libs |}.
Proof.
  intros Hd Hl Hi Hpc Hlibs. unfold setup_extension.
  rewrite Hpc. simpl.
  destruct (String.length DESTDIR =? 0)%nat eqn:Hlen.
  { by apply length_zero in Hlen. }
  simpl. unfold bob_path. rewrite Hl, Hi. simpl.
  unfold subscript. by rewrite Hlibs.
Qed.

(** A caged build that returns a descriptor had a toolbox record with
    both base directories and a package with libraries. *)
Lemma setup_extension_caged_inv ext pc_file d :
  DESTDIR ≠ "" →
  build ext pc_file = Ok d →
  ∃ pc libdir includedir,
    BOB !! "base_libdir" = Some (Some libdir)
    ∧ BOB !! "base_includedir" = Some (Some includedir)
    ∧ pkgconfig popen (package pc_file) = Ok pc
    ∧ pc !! "libraries" = Some (libraries d).
Proof.
  intros Hd. unfold setup_extension.
  destruct (pkgconfig popen (package pc_file)) as [pc|e]; simpl; [|done].
  destruct (String.length DESTDIR =? 0)%nat eqn:Hlen.
  { by apply length_zero in Hlen. }
  simpl. unfold bob_path.
  destruct (BOB !! "base_libdir") as [[l|]|]; simpl; [|done..].
  destruct (BOB !! "base_includedir") as [[i|]|]; simpl; [|done..].
  unfold subscript. destruct (pc !! "libraries") as [v|] eqn:Hv; simpl; [|done].
  intros [= <-]. simpl. by exists pc, l, i.
Qed.

(** C5.  With a non-empty caging root, every descriptor the builder
    returns has, as library directories (link time and run time), the
    join of the caging root with the base library directory, leading
    separators stripped, ahead of the discovered directories that exist,
    and, as include directories, the join of the caging root with the
    base include directory, separators stripped at both ends, ahead of
    the discovered ones (numpy's own comes last); and the builder does
    return a descriptor whenever the toolbox record holds both base
    directories and the package lists libraries. *)
Theorem setup_extension_caged ext pc_file :
  DESTDIR ≠ "" →
  (∀ d, setup_extension popen DESTDIR BOB version_info path_exists
          platform_system numpy_include ext pc_file = Ok d →
        ∃ pc libdir includedir,
          pkgconfig popen (package pc_file) = Ok pc
          ∧ BOB !! "base_libdir" = Some (Some libdir)
          ∧ BOB !! "base_includedir" = Some (Some includedir)
          ∧ library_dirs d =
              Py.path_join DESTDIR (Py.lstrip_char Py.sep libdir)
                :: existing pc "library_dirs"
          ∧ runtime_library_dirs d = library_dirs d
          ∧ include_dirs d =
              Py.path_join DESTDIR (Py.strip_char Py.sep includedir)
                :: existing pc "include_dirs" ++ [numpy_include])
  ∧ (∀ pc libdir includedir libs,
        BOB !! "base_libdir" = Some (Some libdir) →
        BOB !! "base_includedir" = Some (Some includedir) →
        pkgconfig popen (package pc_file) = Ok pc →
        pc !! "libraries" = Some libs →
        ∃ d, setup_extension popen DESTDIR BOB version_info path_exists
               platform_system numpy_include ext pc_file = Ok d
             ∧ library_dirs d =
                 Py.path_join DESTDIR (Py.lstrip_char Py.sep libdir)
                   :: existing pc "library_dirs"
             ∧ runtime_library_dirs d = library_dirs d
             ∧ include_dirs d =
                 Py.path_join DESTDIR (Py.strip_char Py.sep includedir)
                   :: existing pc "include_dirs" ++ [numpy_include]
             ∧ libraries d = libs).
Proof.
  intros Hd. split.
  - intros d Hbuild.
    destruct (setup_extension_caged_inv _ _ _ Hd Hbuild)
      as (pc & libdir & includedir & Hl & Hi & Hpc & Hlibs).
    rewrite (setup_extension_caged_run _ _ _ _ _ _ Hd Hl Hi Hpc Hlibs) in Hbuild.
    injection Hbuild as <-. exists pc, libdir, includedir. by simpl.
  - intros pc libdir includedir libs Hl Hi Hpc Hlibs.
    eexists. split; [by eapply setup_extension_caged_run|]. by simpl.
Qed.

(** C6, amended.  When the package query yields no library, the builder
    returns no descriptor: it raises, and unless a caged build already
    failed on the toolbox record the error is the [KeyError] of the
    missing [libraries] bucket, which names that bucket and not the
    extension.  No descriptor ever has an empty list of libraries. *)
Theorem setup_extension_no_libraries ext pc_file :
  (∀ pc, pkgconfig popen (package pc_file) = Ok pc →
         default [] (pc !! "libraries") = [] →
         ∃ e, setup_extension popen DESTDIR BOB version_info path_exists
                platform_system numpy_include ext pc_file = Raise e
              ∧ (DESTDIR = ""
                 ∨ (∃ l i, BOB !! "base_libdir" = Some (Some l)
                           ∧ BOB !! "base_includedir" = Some (Some i)) →
                 e = KeyError "libraries"))
  ∧ (∀ d, setup_extension popen DESTDIR BOB version_info path_exists
            platform_system numpy_include ext pc_file = Ok d →
          libraries d ≠ []).
Proof.
  unfold setup_extension. split.
  - intros pc Hpc Hnone. rewrite Hpc. simpl.
    assert (pc !! "libraries" = None) as Hlibs.
    { destruct (pc !! "libraries") as [v|] eqn:Hv; [|done].
      simpl in Hnone. subst v. by eapply pkgconfig_bucket_nonempty in Hv. }
    destruct (String.length DESTDIR =? 0)%nat eqn:Hlen; simpl.
    + unfold subscript. rewrite Hlibs. simpl. eauto.
    + unfold bob_path.
      destruct (BOB !! "base_libdir") as [[l|]|] eqn:Hl; simpl;
        [|eexists; split; [done|]; intros [->|(? & ? & ? & ?)]; done..].
      destruct (BOB !! "base_includedir") as [[i|]|] eqn:Hi; simpl;
        [|eexists; split; [done|]; intros [->|(? & ? & ? & ?)]; done..].
      unfold subscript. rewrite Hlibs. simpl. eauto.
  - intros d. destruct (pkgconfig popen (package pc_file)) as [pc|e] eqn:Hpc; [|done].
    simpl.
    match goal with
    | |- context [mbind _ ?m] => destruct m as [[ld id]|e]; simpl; [|done]
    end.
    unfold subscript. destruct (pc !! "libraries") as [v|] eqn:Hv; simpl; [|done].
    intros [= <-]. simpl. by eapply pkgconfig_bucket_nonempty.
Qed.

(** With a non-empty caging root and a toolbox record whose base
    library or base include directory is [None], the builder raises;
    when the package query itself returned, the error is the
    [AttributeError] of calling a string method on [None]. *)
Lemma setup_extension_caged_none ext pc_file :
  DESTDIR ≠ "" →
  is_Some (BOB !! "base_libdir") →
  is_Some (BOB !! "base_includedir") →
  BOB !! "base_libdir" = Some None ∨ BOB !! "base_includedir" = Some None →
  ∃ e, build ext pc_file = Raise e
       ∧ (is_ok (pkgconfig popen (package pc_file)) = true →
          ∃ method, e = AttributeError
            ("'NoneType' object has no attribute '" +:+ method +:+ "'")).
Proof.
  intros Hd [l Hl] [i Hi] Hnone. unfold setup_extension.
  destruct (pkgconfig popen (package pc_file)) as [pc|e]; simpl;
    [|by eexists].
  destruct (String.length DESTDIR =? 0)%nat eqn:Hlen.
  { by apply length_zero in Hlen. }
  simpl. unfold bob_path. rewrite Hl, Hi.
  destruct l as [l|]; simpl;
    [|eexists; split; [done|]; intros _; by exists "lstrip"].
  destruct i as [i|]; simpl;
    [|eexists; split; [done|]; intros _; by exists "strip"].
  destruct Hnone; congruence.
Qed.

End Descriptor.

Lemma setup_extension_caged_witness :
  ∃ d, setup_extension popen_core "/stage" BOB_usr (2%nat, 7%nat) (fun _ => true)
         "Linux" "/numpy/include" "bob.core._core" "bob-core-py" = Ok d
       ∧ library_dirs d = ["/stage/usr/lib"; "/usr/local/lib"]
       ∧ runtime_library_dirs d = library_dirs d
       ∧ include_dirs d = ["/stage/usr/include"; "/usr/local/include"; "/numpy/include"]
       ∧ libraries d = ["bob_core"].
Proof.
  refine (proj2 (setup_extension_caged popen_core "/stage" BOB_usr (2%nat, 7%nat)
                   (fun _ => true) "Linux" "/numpy/include" "bob.core._core" "bob-core-py" _)
            (classify ["-I/usr/local/include"; "-L/usr/local/lib"; "-lbob_core"])
            "/usr/lib" "/usr/include/" ["bob_core"] _ _ _ _).
  - discriminate.
  - vm_compute. reflexivity.
  - vm_compute. reflexivity.
  - vm_compute. reflexivity.
  - vm_compute. reflexivity.
Defined.

(** C6, as stated, fails: for a package that is missing the builder
    raises [KeyError('libraries')], whose text does not contain the name of
    the extension. *)
Lemma setup_extension_error_unnamed :
  ¬ (∃ e, setup_extension popen_missing "" BOB_usr (2%nat, 7%nat) (fun _ => true)
            "Linux" "/numpy/include" "bob.core._core" "bob-core-py" = Raise e
          ∧ Py.find (exn_text e) "bob.core._core" ≠ -1).
Proof.
  intros (e & He & Hfind). vm_compute in He. injection He as <-.
  by vm_compute in Hfind.
Qed.

Lemma setup_extension_no_libraries_witness :
  (∃ e, setup_extension popen_missing "" BOB_usr (2%nat, 7%nat) (fun _ => true)
          "Linux" "/numpy/include" "bob.core._core" "bob-core-py" = Raise e
        ∧ ("" = ""
           ∨ (∃ l i, BOB_usr !! "base_libdir" = Some (Some l)
                     ∧ BOB_usr !! "base_includedir" = Some (Some i)) →
           e = KeyError "libraries"))
  ∧ libraries {| ext_name := "bob.core._core"; sources := []; language := "c++";
                 include_dirs := ["/usr/local/include"; "/numpy/include"];
                 library_dirs := ["/usr/local/lib"];
                 runtime_library_dirs := ["/usr/local/lib"];
                 libraries := ["bob_core"] |} ≠ [].
Proof.
  split.
  - apply (proj1 (setup_extension_no_libraries popen_missing "" BOB_usr (2%nat, 7%nat)
                    (fun _ => true) "Linux" "/numpy/include" "bob.core._core" "bob-core-py")
             ∅).
    + vm_compute. reflexivity.
    + vm_compute. reflexivity.
  - apply (proj2 (setup_extension_no_libraries popen_core "" BOB_usr (2%nat, 7%nat)
                    (fun _ => true) "Linux" "/numpy/include" "bob.core._core" "bob-core-py")).
    vm_compute. reflexivity.
Defined.

(** Once the three outputs are decoded: a variable query that exits
    with a non-zero status leaves [None] in its field of the record, and
    every build with a non-empty caging root then raises. *)
Lemma bob_variables_None_dirs popen pv pl pi :
  popen modversion_cmd = Ok pv → returncode pv = 0 →
  popen (variable_cmd "libdir") = Ok pl →
  popen (variable_cmd "includedir") = Ok pi →
  returncode pl ≠ 0 ∨ returncode pi ≠ 0 →
  ∃ BOB, bob_variables popen = Ok BOB
    ∧ BOB !! "version" = Some (Some (Py.strip (output pv)))
    ∧ (returncode pl ≠ 0 → BOB !! "base_libdir" = Some None)
    ∧ (returncode pi ≠ 0 → BOB !! "base_includedir" = Some None)
    ∧ ∀ popen' DESTDIR version_info path_exists platform_system numpy_include
        ext pc_file,
        DESTDIR ≠ "" →
        ∃ e, setup_extension popen' DESTDIR BOB version_info path_exists
               platform_system numpy_include ext pc_file = Raise e
             ∧ (is_ok (pkgconfig popen'
                         (pc_file +:+ pretty (fst version_info)
                                  +:+ pretty (snd version_info))) = true →
                ∃ method, e = AttributeError
                  ("'NoneType' object has no attribute '" +:+ method +:+ "'")).
Proof.
  intros Hv Hrc Hl Hi Hnone.
  rewrite bob_variables_unfold, Hv, Hrc, !get_var_unfold, Hl, Hi. simpl.
  eexists. split; [done|].
  assert (∀ p : completed, returncode p ≠ 0 →
            (if returncode p =? 0 then Some (Py.strip (output p)) else None) = None)
    as Hno by (by intros p ->%Z.eqb_neq).
  split_and!.
  - do 2 (rewrite lookup_insert_ne; [|done]). by rewrite lookup_insert_eq.
  - intros H. rewrite lookup_insert_ne; [|done]. by rewrite lookup_insert_eq, Hno.
  - intros H. by rewrite lookup_insert_eq, Hno.
  - intros popen' DESTDIR vi pe ps ni ext pc_file Hd.
    apply setup_extension_caged_none; [done|..].
    + rewrite lookup_insert_ne; [|done]. rewrite lookup_insert_eq. eauto.
    + rewrite lookup_insert_eq. eauto.
    + destruct Hnone as [H|H]; [left|right].
      * rewrite lookup_insert_ne; [|done]. by rewrite lookup_insert_eq, Hno.
      * by rewrite lookup_insert_eq, Hno.
Qed.

(** C10, as stated, fails: each variable query has its output decoded
    before its exit status is looked at, so when the version query succeeds
    and the variable queries exit with a non-zero status after printing
    bytes that are not UTF-8, no record is returned: [bob_variables]
    raises. *)
Lemma bob_variables_undecodable_dir :
  (∃ rv version rl ri,
     run_no_dirs_undecodable modversion_cmd = Ok rv
     ∧ exit_status rv = 0 ∧ decoded rv = Ok version
     ∧ run_no_dirs_undecodable (variable_cmd "libdir") = Ok rl ∧ exit_status rl ≠ 0
     ∧ run_no_dirs_undecodable (variable_cmd "includedir") = Ok ri ∧ exit_status ri ≠ 0)
  ∧ ¬ (∃ BOB, bob_variables (capture run_no_dirs_undecodable) = Ok BOB).
Proof.
  split.
  - eexists _, _, _, _. split_and!; try reflexivity; done.
  - intros (BOB & HB). vm_compute in HB. discriminate.
Qed.

(** C10, amended.  If the version query succeeds but the query for the
    base library directory or for the base include directory exits with a
    non-zero status, then, provided what the two variable queries printed
    decodes, [bob_variables] still returns the record, with [None] in that
    field; every build with a non-empty caging root then raises, and when
    the package query itself returned the error is the [AttributeError] of
    calling [lstrip] or [strip] on [None] while the caged path is being
    joined.  When the output of a variable query does not decode,
    [bob_variables] raises the decoding error, whatever the exit status. *)
Theorem bob_variables_missing_dirs run rv rl ri version :
  run modversion_cmd = Ok rv → exit_status rv = 0 → decoded rv = Ok version →
  run (variable_cmd "libdir") = Ok rl →
  run (variable_cmd "includedir") = Ok ri →
  exit_status rl ≠ 0 ∨ exit_status ri ≠ 0 →
  (∀ tl ti, decoded rl = Ok tl → decoded ri = Ok ti →
     ∃ BOB, bob_variables (capture run) = Ok BOB
       ∧ BOB !! "version" = Some (Some (Py.strip version))
       ∧ (exit_status rl ≠ 0 → BOB !! "base_libdir" = Some None)
       ∧ (exit_status ri ≠ 0 → BOB !! "base_includedir" = Some None)
       ∧ ∀ popen' DESTDIR version_info path_exists platform_system numpy_include
           ext pc_file,
           DESTDIR ≠ "" →
           ∃ e, setup_extension popen' DESTDIR BOB version_info path_exists
                  platform_system numpy_include ext pc_file = Raise e
                ∧ (is_ok (pkgconfig popen'
                            (pc_file +:+ pretty (fst version_info)
                                     +:+ pretty (snd version_info))) = true →
                   ∃ method, e = AttributeError
                     ("'NoneType' object has no attribute '" +:+ method +:+ "'")))
  ∧ (∀ e, decoded rl = Raise e → bob_variables (capture run) = Raise e)
  ∧ (∀ tl e, decoded rl = Ok tl → decoded ri = Raise e →
             bob_variables (capture run) = Raise e).
Proof.
  intros Hv Hrc Hdv Hl Hi Hnone.
  pose proof (capture_Ok _ _ _ _ Hv Hdv) as Hcv.
  split_and!.
  - intros tl ti Hdl Hdi.
    apply (bob_variables_None_dirs (capture run) _ _ _ Hcv Hrc
             (capture_Ok _ _ _ _ Hl Hdl) (capture_Ok _ _ _ _ Hi Hdi) Hnone).
  - intros e Hdl.
    rewrite bob_variables_unfold, !get_var_unfold, Hcv,
      (capture_undecodable _ _ _ _ Hl Hdl).
    simpl. by rewrite Hrc.
  - intros tl e Hdl Hdi.
    rewrite bob_variables_unfold, !get_var_unfold, Hcv,
      (capture_Ok _ _ _ _ Hl Hdl), (capture_undecodable _ _ _ _ Hi Hdi).
    simpl. by rewrite Hrc.
Qed.

Lemma bob_variables_missing_dirs_witness :
  ∃ BOB, bob_variables (capture run_no_dirs) = Ok BOB
    ∧ BOB !! "version" = Some (Some "1.2.0")
    ∧ BOB !! "base_libdir" = Some None
    ∧ BOB !! "base_includedir" = Some None
    ∧ ∃ e, setup_extension popen_core "/stage" BOB (2%nat, 7%nat) (fun _ => true)
             "Linux" "/numpy/include" "bob.core._core" "bob-core-py" = Raise e
           ∧ ∃ method, e = AttributeError
               ("'NoneType' object has no attribute '" +:+ method +:+ "'").
Proof.
  assert (1 ≠ 0 ∨ 1 ≠ 0) as Hexit by (left; lia).
  destruct (proj1 (bob_variables_missing_dirs run_no_dirs
                     {| decoded := Ok ("1.2.0" +:+ newline); exit_status := 0 |}
                     {| decoded := Ok "Variable not defined"; exit_status := 1 |}
                     {| decoded := Ok "Variable not defined"; exit_status := 1 |}
                     ("1.2.0" +:+ newline)
                     eq_refl eq_refl eq_refl eq_refl eq_refl Hexit)
              "Variable not defined" "Variable not defined" eq_refl eq_refl)
    as (BOB & HB & Hv & Hl & Hi & Hbuild).
  exists BOB. split_and!; [done|done| | |].
  - apply Hl. simpl. lia.
  - apply Hi. simpl. lia.
  - destruct (Hbuild popen_core "/stage" (2%nat, 7%nat) (fun _ : string => true)
                "Linux" "/numpy/include" "bob.core._core" "bob-core-py")
      as (e & He & Hattr); [discriminate|].
    exists e. split; [done|]. apply Hattr. vm_compute. reflexivity.
Defined.

(** ** The build command *)

Lemma find_from_range (sub s : string) (i : Z) :
  0 ≤ i → Py.find_from i sub s = -1 ∨ i ≤ Py.find_from i sub s.
Proof.
  revert i. induction s as [|c s IH]; intros i Hi; cbn [Py.find_from].
  - destruct (Py.startswith sub ""); lia.
  - destruct (Py.startswith sub (String c s)); [lia|].
    destruct (IH (i + 1)); lia.
Qed.

Lemma find_zero (s sub : string) : Py.find s sub = 0 ↔ Py.startswith sub s = true.
Proof.
  unfold Py.find. destruct s as [|c s]; cbn [Py.find_from].
  - by destruct (Py.startswith sub "").
  - destruct (Py.startswith sub (String c s)); [done|].
    split; [|done]. intros H. change (0 + 1) with 1 in H.
    destruct (find_from_range sub s 1); lia.
Qed.

Lemma ld_ok_startswith (opt : string) : ld_ok opt = negb (Py.startswith "-L" opt).
Proof.
  unfold ld_ok. destruct (Py.startswith "-L" opt) eqn:Hs.
  - apply find_zero in Hs. by rewrite Hs.
  - destruct (Py.find opt "-L" =? 0) eqn:Hf; [|done].
    apply Z.eqb_eq, find_zero in Hf. congruence.
Qed.

Lemma ld_ok_filter (so : list string) :
  filter (fun k => ld_ok k = true) so = filter (fun k => Py.startswith "-L" k = false) so.
Proof.
  apply list_filter_iff. intros k. rewrite ld_ok_startswith.
  by destruct (Py.startswith "-L" k).
Qed.

Section BuildFacts.

Variable mkstemp : gset string → string.
Variable spawn : list string → gset string → result completed * gset string.
Variable base_build_extension :
  build_ext → Extension → gset string → result (gset string).

Local Abbreviation probe := (linker_can_remove_symbols mkstemp spawn).
Local Abbreviation build1 := (build_extension mkstemp spawn base_build_extension).
Local Abbreviation builds := (build_extensions mkstemp spawn base_build_extension).
Local Abbreviation probe_cmd linker w :=
  (linker ++ ["-Wl,--no-as-needed"; "-lm"; "-o"; mkstemp (files w)]).

(** The probe makes one temporary file and launches one command. *)
Lemma probe_trace linker w r w' :
  probe linker w = (r, w') →
  temps w' = temps w ++ [mkstemp (files w)]
  ∧ probes w' = probes w ++ [probe_cmd linker w]
  ∧ base_calls w' = base_calls w.
Proof.
  unfold linker_can_remove_symbols. simpl.
  destruct (spawn _ _) as [[proc|e] fs]; intros [= <- <-]; done.
Qed.

(** C4, amended.  Whenever the link attempt of the probe runs to
    completion, with a zero or a non-zero exit status, the probe returns
    whether the status was zero and the temporary file it made is gone
    when it returns.  When the attempt raises, the exception leaves the
    probe at once: there is no removal step on that path, and the file
    made by [mkstemp] is still there if the attempt left it. *)
Theorem probe_cleanup linker w :
  let name := mkstemp (files w) in
  (∀ proc fs,
      spawn (probe_cmd linker w) ({[name]} ∪ files w) = (Ok proc, fs) →
      ∃ w', linker_can_remove_symbols mkstemp spawn linker w
              = (Ok (bool_decide (returncode proc = 0)), w')
            ∧ temps w' = temps w ++ [name]
            ∧ files w' = fs ∖ {[name]}
            ∧ name ∉ files w')
  ∧ (∀ e fs,
      spawn (probe_cmd linker w) ({[name]} ∪ files w) = (Raise e, fs) →
      ∃ w', linker_can_remove_symbols mkstemp spawn linker w = (Raise e, w')
            ∧ temps w' = temps w ++ [name]
            ∧ files w' = fs
            ∧ (name ∈ fs → name ∈ files w')).
Proof.
  intros name. unfold linker_can_remove_symbols. fold name. simpl. split.
  - intros proc fs ->. eexists. split_and!.
    + f_equal. destruct (returncode proc =? 0) eqn:Hrc.
      * apply Z.eqb_eq in Hrc. by rewrite bool_decide_eq_true_2.
      * apply Z.eqb_neq in Hrc. by rewrite bool_decide_eq_false_2.
    + done.
    + simpl. case_decide; set_solver.
    + simpl. case_decide; set_solver.
  - intros e fs ->. eexists. split_and!; done.
Qed.

(** One call of [build_extension] on a command whose cache is set. *)
Lemma build_extension_cached ext self w b r self' w' :
  linker_is_smart self = Some b →
  build1 ext (self, w) = (r, (self', w')) →
  linker_is_smart self' = Some b
  ∧ probes w' = probes w ∧ temps w' = temps w
  ∧ linker_so (compiler self') = filter (fun k => ld_ok k = true) (linker_so (compiler self))
  ∧ base_calls w' = base_calls w ++ [linker_so (compiler self')].
Proof.
  intros Hb. unfold build_extension.
  assert (linker_is_smart
            (set_linker_so (filter (fun k => ld_ok k = true) (linker_so (compiler self))) self)
          = Some b) as -> by done.
  destruct (dll_libraries _) as [[d|]|];
    destruct (base_build_extension _ _ _) as [fs|e]; intros [= <- <- <-]; done.
Qed.

(** One call of [build_extension] on a command whose cache is unset. *)
Lemma build_extension_fresh ext self w r self' w' :
  linker_is_smart self = None →
  build1 ext (self, w) = (r, (self', w')) →
  let clean := filter (fun k => ld_ok k = true) (linker_so (compiler self)) in
  probes w' = probes w ++ [probe_cmd clean w]
  ∧ temps w' = temps w ++ [mkstemp (files w)]
  ∧ ((∃ e, r = Raise e ∧ linker_is_smart self' = None
           ∧ linker_so (compiler self') = clean ∧ base_calls w' = base_calls w)
     ∨ (∃ b, linker_is_smart self' = Some b
             ∧ linker_so (compiler self') =
                 clean ++ (if b then ["-Wl,--no-as-needed"] else [])
             ∧ base_calls w' = base_calls w ++ [linker_so (compiler self')])).
Proof.
  intros Hb. unfold build_extension.
  assert (linker_is_smart
            (set_linker_so (filter (fun k => ld_ok k = true) (linker_so (compiler self))) self)
          = None) as -> by done.
  simpl linker_so.
  destruct (probe _ w) as [[b|e] w1] eqn:Hp;
    apply probe_trace in Hp as (Ht & Hp & Hc).
  - destruct b; simpl;
      destruct (dll_libraries _) as [[d|]|];
      destruct (base_build_extension _ _ _) as [fs|e]; intros [= <- <- <-]; simpl;
      (split_and!; [done|done|]); right;
      first [ by exists true; simpl; rewrite Hc
            | by exists false; simpl; rewrite Hc, app_nil_r ].
  - intros [= <- <- <-]. split_and!; [done|done|]. left. eauto.
Qed.

(** A run of builds on a command whose cache is set never probes. *)
Lemma build_extensions_cached exts self w b r self' w' :
  linker_is_smart self = Some b →
  builds exts (self, w) = (r, (self', w')) →
  linker_is_smart self' = Some b ∧ probes w' = probes w ∧ temps w' = temps w.
Proof.
  revert self w. induction exts as [|ext rest IH]; intros self w Hb;
    cbn [build_extensions].
  - by intros [= <- <- <-].
  - destruct (build1 ext (self, w)) as [r1 [self1 w1]] eqn:H1.
    destruct (build_extension_cached _ _ _ _ _ _ _ Hb H1) as (Hb1 & Hp1 & Ht1 & _).
    destruct r1 as [[]|e].
    + intros Hrest. destruct (IH _ _ Hb1 Hrest) as (? & ? & ?).
      split_and!; congruence.
    + by intros [= <- <- <-].
Qed.

(** C3, amended.  The cache belongs to the command object.  Over any
    run of builds on one command object, a run that the first exception
    ends, the probe is launched at most once and at most one temporary file
    is made; a command whose cache is unset probes in its first build; once
    the cache holds a boolean, no later build launches the linker probe or
    makes a temporary file, and the boolean never changes. *)
Theorem linker_probe_once exts self w r self' w' :
  build_extensions mkstemp spawn base_build_extension exts (self, w)
    = (r, (self', w')) →
  (length (probes w') ≤ length (probes w) + 1)%nat
  ∧ (length (temps w') ≤ length (temps w) + 1)%nat
  ∧ (∀ b, linker_is_smart self = Some b →
          linker_is_smart self' = Some b
          ∧ probes w' = probes w ∧ temps w' = temps w)
  ∧ (linker_is_smart self = None → exts ≠ [] →
     length (probes w') = S (length (probes w))
     ∧ length (temps w') = S (length (temps w)))
  ∧ (∀ ext rest self1 w1,
        exts = ext :: rest →
        build_extension mkstemp spawn base_build_extension ext (self, w)
          = (Ok (), (self1, w1)) →
        ∃ b, linker_is_smart self1 = Some b
             ∧ linker_is_smart self' = Some b
             ∧ probes w' = probes w1 ∧ temps w' = temps w1).
Proof.
  intros Hrun.
  assert (∀ ext rest self1 w1,
            exts = ext :: rest →
            build1 ext (self, w) = (Ok (), (self1, w1)) →
            ∃ b, linker_is_smart self1 = Some b
                 ∧ linker_is_smart self' = Some b
                 ∧ probes w' = probes w1 ∧ temps w' = temps w1) as Hafter.
  { intros ext rest self1 w1 -> H1. cbn [build_extensions] in Hrun.
    rewrite H1 in Hrun.
    assert (∃ b, linker_is_smart self1 = Some b) as [b Hb1].
    { destruct (linker_is_smart self) as [b|] eqn:Hb.
      - exists b. by eapply build_extension_cached.
      - destruct (build_extension_fresh _ _ _ _ _ _ Hb H1) as (_ & _ & [Hr|Hr]).
        + by destruct Hr as (e & ? & _).
        + destruct Hr as (b & ? & _). eauto. }
    exists b. destruct (build_extensions_cached _ _ _ _ _ _ _ Hb1 Hrun) as (? & ? & ?).
    done. }
  destruct (linker_is_smart self) as [b|] eqn:Hb.
  - destruct (build_extensions_cached _ _ _ _ _ _ _ Hb Hrun) as (Hb' & Hp & Ht).
    split_and!; [rewrite Hp; lia|rewrite Ht; lia| |done|done].
    intros b' [= <-]. done.
  - destruct exts as [|ext rest].
    { cbn [build_extensions] in Hrun. injection Hrun as <- <- <-.
      split_and!; [lia|lia|done|done|done]. }
    assert (length (probes w') = S (length (probes w))
            ∧ length (temps w') = S (length (temps w))) as [Hp Ht].
    { pose proof Hrun as Hrun'. cbn [build_extensions] in Hrun'.
      destruct (build1 ext (self, w)) as [r1 [self1 w1]] eqn:H1.
      destruct (build_extension_fresh _ _ _ _ _ _ Hb H1) as (Hp1 & Ht1 & _).
      destruct r1 as [[]|e].
      - destruct (Hafter ext rest self1 w1 eq_refl H1) as (b & _ & _ & -> & ->).
        rewrite Hp1, Ht1, !length_app. simpl. lia.
      - injection Hrun' as <- <- <-.
        rewrite Hp1, Ht1, !length_app. simpl. lia. }
    split_and!; [lia|lia|done|done|done].
Qed.

(** C9.  Every call of [build_extension] first drops from
    [compiler.linker_so] the tokens that start with [-L] and keeps the
    others in order: the command of the probe, when the probe runs, is
    that sanitised invocation followed by the probe flags, and the
    invocation in force at the link step and left on the compiler is
    the sanitised one, followed by the capability flag when the probe
    has just succeeded.  Over a run of builds no probe command and no
    link invocation carries a token of the original invocation that
    starts with [-L]. *)
Theorem linker_sanitized exts self w r self' w' :
  build_extensions mkstemp spawn base_build_extension exts (self, w)
    = (r, (self', w')) →
  (∀ opt, ld_ok opt = negb (Py.startswith "-L" opt))
  ∧ (∀ ext rest r1 self1 w1,
        exts = ext :: rest →
        build_extension mkstemp spawn base_build_extension ext (self, w)
          = (r1, (self1, w1)) →
        let clean :=
          filter (fun k => Py.startswith "-L" k = false) (linker_so (compiler self)) in
        (probes w1 = probes w ∨ probes w1 = probes w ++ [probe_cmd clean w])
        ∧ (∃ extra, (extra = [] ∨ extra = ["-Wl,--no-as-needed"])
                    ∧ linker_so (compiler self1) = clean ++ extra)
        ∧ (base_calls w1 = base_calls w
           ∨ base_calls w1 = base_calls w ++ [linker_so (compiler self1)]))
  ∧ (∀ so, so ∈ base_calls w' →
           so ∈ base_calls w ∨ Forall (fun k => Py.startswith "-L" k = false) so)
  ∧ (∀ cmd, cmd ∈ probes w' →
            cmd ∈ probes w
            ∨ ∃ linker name,
                cmd = linker ++ ["-Wl,--no-as-needed"; "-lm"; "-o"; name]
                ∧ Forall (fun k => Py.startswith "-L" k = false) linker)
  ∧ (exts ≠ [] → Forall (fun k => Py.startswith "-L" k = false) (linker_so (compiler self'))).
Proof.
  assert (∀ ext self w r1 self1 w1,
            build1 ext (self, w) = (r1, (self1, w1)) →
            let clean :=
              filter (fun k => Py.startswith "-L" k = false) (linker_so (compiler self)) in
            (probes w1 = probes w ∨ probes w1 = probes w ++ [probe_cmd clean w])
            ∧ (∃ extra, (extra = [] ∨ extra = ["-Wl,--no-as-needed"])
                        ∧ linker_so (compiler self1) = clean ++ extra)
            ∧ (base_calls w1 = base_calls w
               ∨ base_calls w1 = base_calls w ++ [linker_so (compiler self1)])) as Hstep.
  { clear. intros ext self w r1 self1 w1 H1 clean. unfold clean. rewrite <- ld_ok_filter.
    destruct (linker_is_smart self) as [b|] eqn:Hb.
    - destruct (build_extension_cached _ _ _ _ _ _ _ Hb H1) as (_ & Hp & _ & Hso & Hc).
      split_and!; [by left| |by right].
      exists []. rewrite app_nil_r. split; [by left|done].
    - destruct (build_extension_fresh _ _ _ _ _ _ Hb H1) as (Hp & _ & Hcase).
      split; [by right|].
      destruct Hcase as [(e & _ & _ & Hso & Hc)|(b & _ & Hso & Hc)].
      + split; [|by left]. exists []. rewrite app_nil_r. split; [by left|done].
      + split; [|by right]. destruct b; [exists ["-Wl,--no-as-needed"]|exists []];
          (split; [tauto|done]). }
  assert (∀ so : list string,
            Forall (fun k => Py.startswith "-L" k = false)
              (filter (fun k => Py.startswith "-L" k = false) so)) as Hclean.
  { intros so. apply Forall_forall. by intros k [? _]%list_elem_of_filter. }
  assert (∀ ext self w r1 self1 w1,
            build1 ext (self, w) = (r1, (self1, w1)) →
            Forall (fun k => Py.startswith "-L" k = false) (linker_so (compiler self1)))
    as Hso.
  { intros ext self0 w0 r1 self1 w1 H1.
    destruct (Hstep _ _ _ _ _ _ H1) as (_ & (extra & Hextra & ->) & _).
    apply Forall_app. split; [done|]. destruct Hextra as [->| ->]; by repeat constructor. }
  revert self w. induction exts as [|ext rest IH]; intros self w Hrun;
    cbn [build_extensions] in Hrun.
  - injection Hrun as <- <- <-.
    split_and!; [apply ld_ok_startswith|done|by left|by left|done].
  - destruct (build1 ext (self, w)) as [r1 [self1 w1]] eqn:H1.
    pose proof (Hstep _ _ _ _ _ _ H1) as (Hp1 & Hso1 & Hc1).
    pose proof (Hso _ _ _ _ _ _ H1) as Hfree1.
    assert (∀ so, so ∈ base_calls w1 →
              so ∈ base_calls w ∨ Forall (fun k => Py.startswith "-L" k = false) so) as Hb1.
    { intros so. destruct Hc1 as [-> | ->]; [by left|].
      rewrite elem_of_app, list_elem_of_singleton. intros [?| ->]; [by left|by right]. }
    assert (∀ cmd, cmd ∈ probes w1 →
              cmd ∈ probes w
              ∨ ∃ linker name,
                  cmd = linker ++ ["-Wl,--no-as-needed"; "-lm"; "-o"; name]
                  ∧ Forall (fun k => Py.startswith "-L" k = false) linker) as Hq1.
    { intros cmd. destruct Hp1 as [-> | ->]; [by left|].
      rewrite elem_of_app, list_elem_of_singleton. intros [?| ->]; [by left|right].
      eauto. }
    split; [apply ld_ok_startswith|]. split.
    { intros ext0 rest0 r0 self0 w0 [= <- <-]. rewrite H1. by intros [= <- <- <-]. }
    destruct r1 as [[]|e].
    + destruct (IH _ _ Hrun) as (_ & _ & Hb & Hq & Hf). split_and!.
      * intros so [?|?]%Hb; [by apply Hb1|by right].
      * intros cmd [?|?]%Hq; [by apply Hq1|by right].
      * intros _. destruct rest as [|ext2 rest2]; [|by apply Hf].
        cbn [build_extensions] in Hrun. by injection Hrun as <- <- <-.
    + injection Hrun as <- <- <-. split_and!; [done|done|done].
Qed.

End BuildFacts.

Lemma demo_run_eq :
  build_extensions mkstemp_demo spawn_ok base_ok demo_exts (build_ext_init cc, world0)
  = (fst demo_run, (fst (snd demo_run), snd (snd demo_run))).
Proof. reflexivity. Defined.

(** C3, as stated, fails: the cache is an attribute of the command
    object, assigned when the probe returns, not a cache of the process.
    Two command objects that build one after the other in one process
    launch the probe twice and make two temporary files; and on one
    command object whose first probe raised the cache is still unset, so
    the next build probes again. *)
Lemma linker_probe_per_command :
  ¬ ((length (probes (snd two_commands)) ≤ 1)%nat)
  ∧ ¬ ((length (temps (snd two_commands)) ≤ 1)%nat)
  ∧ probes (snd two_commands)
    = [["gcc"; "-shared"; "-pthread"; "-Wl,--no-as-needed"; "-lm"; "-o"; "/tmp/tmpk3v9qz"];
       ["gcc"; "-shared"; "-pthread"; "-Wl,--no-as-needed"; "-lm"; "-o"; "/tmp/tmpk3v9qz"]]
  ∧ linker_is_smart <$> fst two_commands = [Some true; Some true]
  ∧ ¬ ((length (probes (snd retried_command)) ≤ 1)%nat)
  ∧ temps (snd retried_command) = ["/tmp/tmpk3v9qz"; "/tmp/tmpw0x1yc"]
  ∧ linker_is_smart <$> fst retried_command = [None].
Proof.
  assert (probes (snd two_commands)
          = [["gcc"; "-shared"; "-pthread"; "-Wl,--no-as-needed"; "-lm"; "-o"; "/tmp/tmpk3v9qz"];
             ["gcc"; "-shared"; "-pthread"; "-Wl,--no-as-needed"; "-lm"; "-o"; "/tmp/tmpk3v9qz"]])
    as Hp by (vm_compute; reflexivity).
  assert (temps (snd two_commands) = ["/tmp/tmpk3v9qz"; "/tmp/tmpk3v9qz"])
    as Ht by (vm_compute; reflexivity).
  assert (length (probes (snd retried_command)) = 2%nat)
    as Hr by (vm_compute; reflexivity).
  split_and!.
  - rewrite Hp. simpl. lia.
  - rewrite Ht. simpl. lia.
  - done.
  - vm_compute. reflexivity.
  - rewrite Hr. lia.
  - vm_compute. reflexivity.
  - vm_compute. reflexivity.
Qed.

(** C4, as stated, fails: when the linker cannot be started the probe
    is left by the exception and the temporary file is still there. *)
Lemma probe_leaves_file_on_error :
  ¬ (∀ r w',
       linker_can_remove_symbols mkstemp_demo spawn_missing ["gcc"; "-shared"] world0
         = (r, w') →
       "/tmp/tmpk3v9qz" ∉ files w').
Proof.
  intros H. eapply H; [reflexivity|]. simpl. set_solver.
Qed.

Lemma probe_cleanup_witness :
  (∃ w', linker_can_remove_symbols mkstemp_demo spawn_ok ["gcc"; "-shared"] world0
           = (Ok true, w')
         ∧ temps w' = ["/tmp/tmpk3v9qz"]
         ∧ files w' = ({[ "/tmp/tmpk3v9qz" ]} ∪ ∅) ∖ {[ "/tmp/tmpk3v9qz" ]}
         ∧ "/tmp/tmpk3v9qz" ∉ files w')
  ∧ (∃ w', linker_can_remove_symbols mkstemp_demo spawn_missing ["gcc"; "-shared"] world0
             = (Raise (OSError "[Errno 2] No such file or directory"), w')
           ∧ temps w' = ["/tmp/tmpk3v9qz"]
           ∧ files w' = {[ "/tmp/tmpk3v9qz" ]} ∪ ∅
           ∧ "/tmp/tmpk3v9qz" ∈ files w').
Proof.
  split.
  - apply (proj1 (probe_cleanup mkstemp_demo spawn_ok ["gcc"; "-shared"] world0)
             {| output := ""; returncode := 0 |} ({[ "/tmp/tmpk3v9qz" ]} ∪ ∅)).
    reflexivity.
  - destruct (proj2 (probe_cleanup mkstemp_demo spawn_missing ["gcc"; "-shared"] world0)
                (OSError "[Errno 2] No such file or directory")
                ({[ "/tmp/tmpk3v9qz" ]} ∪ ∅) eq_refl)
      as (w' & Hrun & Htemps & Hfiles & Hleft).
    exists w'. split_and!; [exact Hrun|exact Htemps|exact Hfiles|].
    apply Hleft. apply elem_of_union_l, elem_of_singleton. reflexivity.
Defined.

Lemma linker_probe_once_witness :
  (length (probes (snd (snd demo_run))) ≤ 0 + 1)%nat
  ∧ length (probes (snd (snd demo_run))) = 1%nat
  ∧ length (temps (snd (snd demo_run))) = 1%nat
  ∧ linker_is_smart (fst (snd demo_run)) = Some true.
Proof.
  pose proof (linker_probe_once mkstemp_demo spawn_ok base_ok demo_exts
                (build_ext_init cc) world0 _ _ _ demo_run_eq)
    as (Hle & _ & _ & Hfresh & Hafter).
  destruct Hfresh as [Hp Ht]; [reflexivity|discriminate|].
  split_and!; [exact Hle|exact Hp|exact Ht|reflexivity].
Defined.

Lemma linker_sanitized_witness :
  (∀ so, so ∈ base_calls (snd (snd demo_run)) →
         so ∈ [] ∨ Forall (fun k => Py.startswith "-L" k = false) so)
  ∧ base_calls (snd (snd demo_run)) =
      [["gcc"; "-shared"; "-pthread"; "-Wl,--no-as-needed"];
       ["gcc"; "-shared"; "-pthread"; "-Wl,--no-as-needed"]]
  ∧ probes (snd (snd demo_run)) =
      [["gcc"; "-shared"; "-pthread"; "-Wl,--no-as-needed"; "-lm"; "-o"; "/tmp/tmpk3v9qz"]].
Proof.
  pose proof (linker_sanitized mkstemp_demo spawn_ok base_ok demo_exts
                (build_ext_init cc) world0 _ _ _ demo_run_eq)
    as (_ & _ & Hbase & _).
  split_and!; [exact Hbase|reflexivity|reflexivity].
Defined.

(** ** The filter registry *)

Lemma issubclass_unfold (c base : pyclass) :
  issubclass c base =
    Pos.eqb (class_uid c) (class_uid base)
    || existsb (fun p => issubclass p base) (class_bases c).
Proof.
  by destruct c as [uid name bases].
Qed.

Lemma issubclass_descends (c base : pyclass) :
  issubclass c base = true ↔ descends base c.
Proof.
  split.
  - induction c as [uid name bases IH] using pyclass_bases_ind.
    rewrite issubclass_unfold. intros [Hid|Hb]%orb_true_iff.
    + apply descends_self. by apply Pos.eqb_eq.
    + apply existsb_exists in Hb as (p & Hin & Hp).
      apply list_elem_of_In in Hin.
      apply (descends_base _ _ p); [done|].
      rewrite Forall_forall in IH. by apply IH.
  - induction 1 as [c Hid|c p Hin _ IH]; rewrite issubclass_unfold; apply orb_true_iff.
    + left. by apply Pos.eqb_eq.
    + right. apply existsb_exists. exists p. split; [|done]. by apply list_elem_of_In.
Qed.

Lemma FILTERS_loop (Filter : pyclass) (l : list (string * value)) (acc : list value) :
  foldl (fun acc kv => if is_filter Filter (snd kv) then acc ++ [snd kv] else acc) acc l
  = acc ++ filter (fun v => is_filter Filter v = true) (map snd l).
Proof.
  revert acc. induction l as [|[k v] l IH]; intros acc; simpl.
  - by rewrite app_nil_r.
  - rewrite IH, filter_cons. simpl. destruct (is_filter Filter v) eqn:Hv.
    + rewrite decide_True by done. by rewrite <- app_assoc.
    + by rewrite decide_False by done.
Qed.

Lemma FILTERS_filter (Filter : pyclass) (scope : gmap string value) :
  FILTERS Filter scope =
    filter (fun v => is_filter Filter v = true) (map snd (map_to_list scope)).
Proof. unfold FILTERS. by rewrite FILTERS_loop. Qed.

Lemma is_filter_true (Filter : pyclass) (v : value) :
  is_filter Filter v = true ↔
  ∃ c, v = VType c ∧ descends Filter c ∧ class_uid c ≠ class_uid Filter.
Proof.
  destruct v as [c| | | | |]; simpl;
    try (split; [done|by intros (c' & ? & _)]).
  rewrite andb_true_iff, issubclass_descends, negb_true_iff.
  unfold same_class. rewrite Pos.eqb_neq. split.
  - intros [? ?]. eauto.
  - by intros (c' & [= <-] & ? & ?).
Qed.

Lemma elem_of_FILTERS (Filter : pyclass) (scope : gmap string value) (v : value) :
  v ∈ FILTERS Filter scope ↔
  (∃ k, scope !! k = Some v) ∧ is_filter Filter v = true.
Proof.
  rewrite FILTERS_filter, list_elem_of_filter, list_elem_of_fmap. split.
  - intros (Hv & [k v'] & -> & Hin). split; [|done].
    exists k. by apply elem_of_map_to_list.
  - intros ((k & Hk) & Hv). split; [done|].
    exists (k, v). split; [done|]. by apply elem_of_map_to_list.
Qed.

(** C8.  For every scope, a value is in the result of the scan exactly
    when the scope binds it, it is a type, it descends from the base
    class, and it is not the base class itself.  A scope that binds the
    base and two proper descendants gives exactly those two; a scope with
    no proper descendant gives the empty list. *)
Theorem FILTERS_discovers (Filter : pyclass) (scope : gmap string value) :
  (∀ v, v ∈ FILTERS Filter scope ↔
        (∃ k, scope !! k = Some v)
        ∧ ∃ c, v = VType c ∧ descends Filter c ∧ class_uid c ≠ class_uid Filter)
  ∧ (∀ kf ka kb A B,
        scope = <[kb := VType B]> (<[ka := VType A]> {[kf := VType Filter]}) →
        kf ≠ ka → kf ≠ kb → ka ≠ kb →
        descends Filter A → class_uid A ≠ class_uid Filter →
        descends Filter B → class_uid B ≠ class_uid Filter →
        ∀ v, v ∈ FILTERS Filter scope ↔ v = VType A ∨ v = VType B)
  ∧ ((∀ k c, scope !! k = Some (VType c) →
             descends Filter c → class_uid c = class_uid Filter) →
     FILTERS Filter scope = [])
  ∧ (∀ kf, scope = {[kf := VType Filter]} → FILTERS Filter scope = []).
Proof.
  assert (∀ v, v ∈ FILTERS Filter scope ↔
            (∃ k, scope !! k = Some v)
            ∧ ∃ c, v = VType c ∧ descends Filter c ∧ class_uid c ≠ class_uid Filter)
    as Hiff.
  { intros v. by rewrite elem_of_FILTERS, is_filter_true. }
  assert ((∀ k c, scope !! k = Some (VType c) →
             descends Filter c → class_uid c = class_uid Filter) →
          FILTERS Filter scope = []) as Hnone.
  { intros Hscope. apply elem_of_nil_inv. intros v [[k Hk] (c & -> & Hd & Hne)]%Hiff.
    apply Hne. by eapply Hscope. }
  split_and!; [done| |done|].
  - intros kf ka kb A B -> Hfa Hfb Hab HdA HnA HdB HnB v. rewrite Hiff. split.
    + intros [[k Hk] (c & -> & Hd & Hne)].
      rewrite !lookup_insert, lookup_singleton in Hk.
      repeat case_decide; simplify_eq; auto.
    + intros [-> | ->]; (split; [|eauto]).
      * exists ka. rewrite lookup_insert_ne by done. by rewrite lookup_insert_eq.
      * exists kb. by rewrite lookup_insert_eq.
  - intros kf ->. apply Hnone. intros k c Hk _.
    rewrite lookup_singleton in Hk. case_decide; by simplify_eq.
Qed.

Example FILTERS_of_module : FILTERS Filter_class filters_scope = [VType Crop_class].
Proof. vm_compute. reflexivity. Qed.

Lemma FILTERS_discovers_witness :
  (∀ v, v ∈ FILTERS Filter_class
              (<["B" := VType CenterCrop_class]>
                 (<["A" := VType Crop_class]> {["Base" := VType Filter_class]}))
        ↔ v = VType Crop_class ∨ v = VType CenterCrop_class)
  ∧ FILTERS Filter_class {["Base" := VType Filter_class]} = [].
Proof.
  split.
  - apply (proj1 (proj2 (FILTERS_discovers Filter_class _)) "Base" "A" "B"
             Crop_class CenterCrop_class).
    + reflexivity.
    + discriminate.
    + discriminate.
    + discriminate.
    + apply issubclass_descends. reflexivity.
    + discriminate.
    + apply issubclass_descends. reflexivity.
    + discriminate.
  - apply (proj2 (proj2 (proj2 (FILTERS_discovers Filter_class _))) "Base").
    reflexivity.
Defined.


(** * Further properties of the code *)

(** ** [uniq] and the token loop *)

Lemma filter_all (P : string → Prop) `{∀ x, Decision (P x)} (l : list string) :
  Forall P l → filter P l = l.
Proof.
  induction 1 as [|x l Hx _ IH]; [done|].
  by rewrite filter_cons_True, IH.
Qed.

Lemma first_occurrences_fixed (l : list string) : NoDup l → first_occurrences l = l.
Proof.
  induction 1 as [|x l Hx _ IH]; simpl; [done|].
  rewrite IH. f_equal. apply filter_all, Forall_forall. by intros y Hy ->.
Qed.

(** X1.  [uniq] changes nothing when run a second time; it returns its
    argument unchanged exactly when the argument has no duplicates, and
    never returns a longer list. *)
Theorem uniq_fixpoint (l : list string) :
  uniq (uniq l) = uniq l
  ∧ (uniq l = l ↔ NoDup l)
  ∧ (length (uniq l) ≤ length l)%nat.
Proof.
  rewrite !uniq_first_occurrences. split_and!.
  - apply first_occurrences_fixed, first_occurrences_NoDup.
  - split; [|apply first_occurrences_fixed].
    intros <-. apply first_occurrences_NoDup.
  - apply sublist_length, first_occurrences_sublist.
Qed.

(** The state of the loop of [uniq] after the items of [l]. *)
Lemma uniq_by_state {A K} `{Countable K} (idfun : A → K) (l : list A) :
  let st := foldl (uniq_step idfun) (∅, []) l in
  (∀ k, k ∈ dom (fst st) ↔ k ∈ idfun <$> l)
  ∧ (∀ k, k ∈ idfun <$> snd st ↔ k ∈ idfun <$> l)
  ∧ NoDup (idfun <$> snd st)
  ∧ sublist (snd st) l
  ∧ (∀ y, y ∈ snd st → ∃ l1 l2, l = l1 ++ y :: l2 ∧ idfun y ∉ idfun <$> l1).
Proof.
  induction l as [|x l IH] using rev_ind; simpl.
  - split_and!; try done.
    + intros k. rewrite dom_empty. set_solver.
    + constructor.
    + intros y Hy. by apply elem_of_nil in Hy.
  - rewrite foldl_snoc.
    destruct (foldl (uniq_step idfun) (∅, []) l) as [seen res]. simpl in *.
    destruct IH as (Hdom & Hres & Hnd & Hsub & Hfirst).
    destruct (seen !! idfun x) as [z|] eqn:Hx; simpl.
    + assert (idfun x ∈ idfun <$> l) as Hin by (apply Hdom, elem_of_dom; eauto).
      split_and!.
      * intros k. rewrite Hdom, fmap_app, elem_of_app. simpl.
        rewrite list_elem_of_singleton. naive_solver.
      * intros k. rewrite Hres, fmap_app, elem_of_app. simpl.
        rewrite list_elem_of_singleton. naive_solver.
      * done.
      * by apply sublist_inserts_r.
      * intros y (l1 & l2 & -> & Hy)%Hfirst.
        exists l1, (l2 ++ [x]). by rewrite <- app_assoc.
    + assert (idfun x ∉ idfun <$> l) as Hnin.
      { intros [z Hz]%Hdom%elem_of_dom. congruence. }
      split_and!.
      * intros k. rewrite dom_insert, elem_of_union, elem_of_singleton, Hdom.
        rewrite fmap_app, elem_of_app. simpl. rewrite list_elem_of_singleton. tauto.
      * intros k. rewrite !fmap_app, !elem_of_app, Hres. done.
      * rewrite fmap_app. apply NoDup_app. split_and!; [done| |by apply NoDup_singleton].
        intros k Hk%Hres. simpl. rewrite list_elem_of_singleton. by intros ->.
      * by apply sublist_app.
      * intros y [Hy| ->%list_elem_of_singleton]%elem_of_app.
        -- apply Hfirst in Hy as (l1 & l2 & -> & Hy).
           exists l1, (l2 ++ [x]). by rewrite <- app_assoc.
        -- by exists l, [].
Qed.

(** X2.  With any marker function, [uniq] keeps a subsequence of its
    argument in which no two items have the same marker, in which every
    marker of the argument is still present, and in which each item is the
    first one of the argument that has its marker. *)
Theorem uniq_by_first_of_marker {A K} `{Countable K} (idfun : A → K) (l : list A) :
  sublist (uniq_by idfun l) l
  ∧ NoDup (idfun <$> uniq_by idfun l)
  ∧ (∀ x, x ∈ l → ∃ y, y ∈ uniq_by idfun l ∧ idfun y = idfun x)
  ∧ (∀ y, y ∈ uniq_by idfun l →
          ∃ l1 l2, l = l1 ++ y :: l2 ∧ ∀ x, x ∈ l1 → idfun x ≠ idfun y).
Proof.
  destruct (uniq_by_state idfun l) as (_ & Hres & Hnd & Hsub & Hfirst).
  unfold uniq_by. split_and!; [done|done| |].
  - intros x Hx.
    assert (idfun x ∈ idfun <$> snd (foldl (uniq_step idfun) (∅, []) l)) as Hk.
    { apply Hres, list_elem_of_fmap. eauto. }
    apply list_elem_of_fmap in Hk as (y & Hy & Hin). eauto.
  - intros y (l1 & l2 & -> & Hy)%Hfirst. exists l1, l2. split; [done|].
    intros x Hx Heq. apply Hy, list_elem_of_fmap. eauto.
Qed.

Lemma take_drop (n : nat) (s : string) : Py.take n s +:+ Py.drop n s = s.
Proof.
  revert s. induction n as [|n IH]; intros [|c s]; try reflexivity.
  change (String c (Py.take n s +:+ Py.drop n s) = String c s). by rewrite IH.
Qed.

Lemma bucket_of_default (items : list string) :
  default [] (bucket_of items) = first_occurrences items.
Proof. by destruct items. Qed.

Lemma classify_bucket_flag (prefix key : string) (tokens : list string) :
  flag_map !! prefix = Some key →
  (∀ p, flag_map !! p = Some key → p = prefix) →
  key ≠ "extra_compile_args" →
  ∀ x, x ∈ default [] (classify tokens !! key) ↔
       ∃ t, t ∈ tokens ∧ Py.take 2 t = prefix ∧ Py.drop 2 t = x.
Proof.
  intros Hp Hinj Hne x.
  rewrite classify_lookup, bucket_of_default, first_occurrences_elem.
  rewrite (routed_flag prefix key) by done.
  change (x ∈ Py.drop 2 <$> filter (fun t => Py.take 2 t = prefix) tokens ↔
          ∃ t, t ∈ tokens ∧ Py.take 2 t = prefix ∧ Py.drop 2 t = x).
  rewrite list_elem_of_fmap. split.
  - intros (t & -> & [? ?]%list_elem_of_filter). eauto.
  - intros (t & ? & ? & <-). exists t. by rewrite list_elem_of_filter.
Qed.

Lemma classify_bucket_extra (tokens : list string) (x : string) :
  x ∈ default [] (classify tokens !! "extra_compile_args") ↔
  x ∈ tokens ∧ flag_map !! Py.take 2 x = None.
Proof.
  rewrite classify_lookup, bucket_of_default, first_occurrences_elem, routed_extra.
  rewrite list_elem_of_filter. tauto.
Qed.

Lemma flag_map_None (p : string) :
  flag_map !! p = None ↔ p ∉ ["-I"; "-L"; "-l"].
Proof.
  rewrite flag_map_lookup, !not_elem_of_cons.
  repeat case_decide; (split; [intros Ht|intros (? & ? & ? & _)]);
    try done; split_and!; try congruence; apply not_elem_of_nil.
Qed.

Lemma flag_map_inj (prefix key : string) :
  (prefix, key) ∈ [("-I", "include_dirs"); ("-L", "library_dirs"); ("-l", "libraries")] →
  flag_map !! prefix = Some key
  ∧ (∀ p, flag_map !! p = Some key → p = prefix)
  ∧ key ≠ "extra_compile_args".
Proof.
  rewrite !elem_of_cons, elem_of_nil.
  intros [[= -> ->]|[[= -> ->]|[[= -> ->]|[]]]]; (split_and!; [done| |done]);
    intros p; rewrite flag_map_lookup; repeat case_decide; congruence.
Qed.

(** X3.  The token loop loses no token and invents none: every token is
    found in the bucket its prefix selects (without its prefix) or, when
    it has none of the three prefixes, unchanged in [extra_compile_args];
    and every entry of a bucket, with the prefix of the bucket put back,
    is one of the tokens. *)
Theorem classify_round_trip (tokens : list string) :
  let bucket k := default [] (classify tokens !! k) in
  (∀ t, t ∈ tokens →
        (Py.take 2 t = "-I" ∧ Py.drop 2 t ∈ bucket "include_dirs")
        ∨ (Py.take 2 t = "-L" ∧ Py.drop 2 t ∈ bucket "library_dirs")
        ∨ (Py.take 2 t = "-l" ∧ Py.drop 2 t ∈ bucket "libraries")
        ∨ ((Py.take 2 t ∉ ["-I"; "-L"; "-l"]) ∧ t ∈ bucket "extra_compile_args"))
  ∧ (∀ x, x ∈ bucket "include_dirs" → "-I" +:+ x ∈ tokens)
  ∧ (∀ x, x ∈ bucket "library_dirs" → "-L" +:+ x ∈ tokens)
  ∧ (∀ x, x ∈ bucket "libraries" → "-l" +:+ x ∈ tokens)
  ∧ (∀ x, x ∈ bucket "extra_compile_args" →
          x ∈ tokens ∧ Py.take 2 x ∉ ["-I"; "-L"; "-l"]).
Proof.
  intros bucket.
  assert (∀ prefix key,
            (prefix, key) ∈ [("-I", "include_dirs"); ("-L", "library_dirs");
                             ("-l", "libraries")] →
            ∀ x, x ∈ bucket key ↔ ∃ t, t ∈ tokens ∧ Py.take 2 t = prefix ∧ Py.drop 2 t = x)
    as Hflag.
  { intros prefix key (? & ? & ?)%flag_map_inj. by apply classify_bucket_flag. }
  assert (∀ prefix key,
            (prefix, key) ∈ [("-I", "include_dirs"); ("-L", "library_dirs");
                             ("-l", "libraries")] →
            ∀ x, x ∈ bucket key → prefix +:+ x ∈ tokens) as Hback.
  { intros prefix key Hin x Hx.
    apply (Hflag prefix key Hin) in Hx as (t & Ht & <- & <-).
    by rewrite take_drop. }
  split_and!.
  - intros t Ht.
    destruct (decide (Py.take 2 t = "-I")) as [HI|HI].
    { left. split; [done|]. apply (Hflag "-I"); [set_solver|eauto]. }
    destruct (decide (Py.take 2 t = "-L")) as [HL|HL].
    { right; left. split; [done|]. apply (Hflag "-L"); [set_solver|eauto]. }
    destruct (decide (Py.take 2 t = "-l")) as [Hl|Hl].
    { do 2 right; left. split; [done|]. apply (Hflag "-l"); [set_solver|eauto]. }
    do 3 right.
    assert (Py.take 2 t ∉ ["-I"; "-L"; "-l"]) as Hnone.
    { rewrite !not_elem_of_cons. split_and!; [done..|apply not_elem_of_nil]. }
    split; [done|]. apply classify_bucket_extra. split; [done|]. by apply flag_map_None.
  - apply (Hback "-I"). set_solver.
  - apply (Hback "-L"). set_solver.
  - apply (Hback "-l"). set_solver.
  - intros x [? ?%flag_map_None]%classify_bucket_extra. done.
Qed.

(** ** The package query on blank and on token-bearing output *)

Lemma split_aux_nil (cur : list ascii) (s : string) :
  Py.split_aux cur s = [] ↔
  cur = [] ∧ ∀ c, c ∈ list_ascii_of_string s → Py.isspace c = true.
Proof.
  revert cur. induction s as [|c s IH]; intros cur; simpl.
  - destruct cur; split; try done.
    + intros _. split; [done|]. intros c Hc. by apply elem_of_nil in Hc.
    + by intros [? _].
  - destruct (Py.isspace c) eqn:Hc.
    + destruct cur as [|a cur].
      * rewrite IH. split; intros [_ Hs]; (split; [done|]).
        -- intros c' [->|?]%elem_of_cons; auto.
        -- intros c' Hc'. apply Hs. by right.
      * split; [done|]. by intros [? _].
    + rewrite IH. split; [by intros [? _]|].
      intros [_ Hs]. rewrite Hs in Hc; [done|by left].
Qed.

Lemma split_aux_tokens (cur : list ascii) (s t : string) :
  Forall (fun c => Py.isspace c = false) cur →
  t ∈ Py.split_aux cur s →
  t ≠ "" ∧ Forall (fun c => Py.isspace c = false) (list_ascii_of_string t).
Proof.
  assert (∀ cur : list ascii,
            cur ≠ [] → Forall (fun c => Py.isspace c = false) cur →
            string_of_list_ascii (rev cur) ≠ ""
            ∧ Forall (fun c => Py.isspace c = false)
                (list_ascii_of_string (string_of_list_ascii (rev cur)))) as Htok.
  { clear. intros cur Hne Hcur. split.
    - intros Heq. apply (f_equal list_ascii_of_string) in Heq.
      rewrite list_ascii_of_string_of_list_ascii in Heq. simpl in Heq.
      apply (f_equal (@rev ascii)) in Heq. rewrite rev_involutive in Heq. done.
    - rewrite list_ascii_of_string_of_list_ascii.
      apply Forall_forall. intros c Hc%list_elem_of_In%in_rev%list_elem_of_In.
      by eapply Forall_forall in Hcur. }
  revert cur. induction s as [|c s IH]; intros cur Hcur; simpl.
  - destruct cur as [|a cur]; [by intros ?%elem_of_nil|].
    intros ->%list_elem_of_singleton. by apply Htok.
  - destruct (Py.isspace c) eqn:Hc.
    + destruct cur as [|a cur]; [by apply IH|].
      intros [->|Ht]%elem_of_cons; [by apply Htok|].
      apply (IH []); [constructor|done].
    + apply IH. by constructor.
Qed.

Lemma classify_empty (tokens : list string) : classify tokens = ∅ ↔ tokens = [].
Proof.
  split; [|by intros ->].
  destruct tokens as [|t ts]; [done|]. intros Hempty. exfalso.
  assert (∃ k, routed k t ≠ None) as [k Hk].
  { unfold routed. destruct (flag_map !! Py.take 2 t) as [bucket|].
    - exists bucket. by rewrite decide_True.
    - exists "extra_compile_args". by rewrite decide_True. }
  assert (classify (t :: ts) !! k = None) as Hnone by (by rewrite Hempty).
  rewrite classify_lookup in Hnone. csimpl in Hnone.
  destruct (routed k t); [done|done].
Qed.

(** X4.  Once the provider has run to its end, what it printed is
    decoded before anything else.  When that fails, [pkgconfig] raises the
    decoding error, whatever the exit status.  Otherwise it returns a
    dictionary, and that dictionary is empty (false in the test
    [if pkgconfig('bob-visioner')]) exactly when the provider exited with a
    non-zero status or printed nothing but blanks, the blanks of
    [str.split]. *)
Theorem pkgconfig_empty_iff run package raw :
  run ["pkg-config"; "--libs"; "--cflags"; package] = Ok raw →
  match decoded raw with
  | Raise e => pkgconfig (capture run) package = Raise e
  | Ok text =>
      ∃ kw, pkgconfig (capture run) package = Ok kw
            ∧ (kw = ∅ ↔
               exit_status raw ≠ 0
               ∨ ∀ c, c ∈ list_ascii_of_string text → Py.isspace c = true)
  end.
Proof.
  intros Hr. destruct (decoded raw) as [text|e] eqn:Hd.
  - unfold pkgconfig. rewrite (capture_Ok _ _ _ _ Hr Hd). simpl.
    destruct (exit_status raw =? 0) eqn:Hrc; simpl.
    + apply Z.eqb_eq in Hrc. eexists. split; [done|].
      rewrite classify_empty. unfold Py.split. rewrite split_aux_nil. naive_solver.
    + apply Z.eqb_neq in Hrc. eexists. split; [done|]. naive_solver.
  - apply pkgconfig_raise. by eapply capture_undecodable.
Qed.

Lemma pkgconfig_empty_iff_witness :
  (∃ kw, pkgconfig (capture run_blank) "bob-visioner" = Ok kw
         ∧ (kw = ∅ ↔
            0 ≠ 0
            ∨ ∀ c, c ∈ list_ascii_of_string
                         (String (ascii_of_nat 160) (String (ascii_of_nat 133) newline)) →
                   Py.isspace c = true))
  ∧ pkgconfig (capture run_undecodable) "bob-visioner"
    = Raise (UnicodeDecodeError "'utf-8' codec can't decode byte 0xff in position 0").
Proof.
  split.
  - apply (pkgconfig_empty_iff run_blank "bob-visioner"
             {| decoded := Ok (String (ascii_of_nat 160) (String (ascii_of_nat 133) newline));
                exit_status := 0 |} eq_refl).
  - apply (pkgconfig_empty_iff run_undecodable "bob-visioner"
             {| decoded := Raise (UnicodeDecodeError
                                    "'utf-8' codec can't decode byte 0xff in position 0");
                exit_status := 1 |} eq_refl).
Defined.

(** On the no-break space and the next-line character [str.split] finds
    no token, and splits between tokens. *)
Lemma split_latin1_blanks :
  Py.split (String (ascii_of_nat 160) (String (ascii_of_nat 133) newline)) = []
  ∧ Py.split ("-la" +:+ String (ascii_of_nat 133) "-lb") = ["-la"; "-lb"]
  ∧ Py.split ("-la" +:+ String (ascii_of_nat 160) "-lb") = ["-la"; "-lb"]
  ∧ pkgconfig (capture run_blank) "bob-visioner" = Ok ∅.
Proof. split_and!; vm_compute; reflexivity. Qed.

Lemma drop_chars (n : nat) (s : string) :
  ∀ c, c ∈ list_ascii_of_string (Py.drop n s) → c ∈ list_ascii_of_string s.
Proof.
  revert s. induction n as [|n IH]; intros [|a s] c; try done.
  change (Py.drop (S n) (String a s)) with (Py.drop n s).
  intros Hc%IH. simpl. by right.
Qed.

(** X5.  No entry of a dictionary returned by [pkgconfig] contains a
    blank character, one on which [str.split] splits (for characters
    below 256: 9 to 13, 28 to 32, 133 and 160), and no entry of
    [extra_compile_args] is the empty string. *)
Theorem pkgconfig_entries_blank_free popen package kw k v x :
  pkgconfig popen package = Ok kw →
  kw !! k = Some v →
  x ∈ v →
  (∀ c, c ∈ list_ascii_of_string x → Py.isspace c = false)
  ∧ (k = "extra_compile_args" → x ≠ "").
Proof.
  unfold pkgconfig.
  destruct (popen _) as [proc|e]; simpl; [|done].
  destruct (returncode proc =? 0); simpl; intros [= <-]; [|by rewrite lookup_empty].
  rewrite classify_lookup. intros Hv Hx.
  assert (x ∈ first_occurrences (omap (routed k) (Py.split (output proc)))) as Hin.
  { destruct (omap _ _); [done|]. by injection Hv as <-. }
  apply first_occurrences_elem, list_elem_of_omap in Hin as (t & Ht & Hr).
  destruct (split_aux_tokens [] _ _ (Forall_nil_2 _) Ht) as [Hne Hblank].
  rewrite Forall_forall in Hblank.
  unfold routed in Hr.
  destruct (flag_map !! Py.take 2 t) as [bucket|] eqn:Hb.
  - destruct (decide (bucket = k)) as [->|]; [|done]. injection Hr as <-. split.
    + intros c Hc%drop_chars. auto.
    + intros ->. rewrite flag_map_lookup in Hb. repeat case_decide; congruence.
  - destruct (decide ("extra_compile_args" = k)); [|done]. injection Hr as <-. auto.
Qed.

Lemma pkgconfig_entries_blank_free_witness :
  (∀ c, c ∈ list_ascii_of_string "/usr/local/include" → Py.isspace c = false)
  ∧ ("include_dirs" = "extra_compile_args" → "/usr/local/include" ≠ "").
Proof.
  apply (pkgconfig_entries_blank_free popen_core "bob-core-py27"
           (classify ["-I/usr/local/include"; "-L/usr/local/lib"; "-lbob_core"])
           "include_dirs" ["/usr/local/include"] "/usr/local/include").
  - reflexivity.
  - vm_compute. reflexivity.
  - apply list_elem_of_singleton. reflexivity.
Defined.

(** ** The toolbox record: failures and stored values *)

Lemma last_rev {A} (l : list A) : last (rev l) = head l.
Proof. destruct l as [|x l]; [done|]. simpl. apply last_snoc. Qed.

Lemma chars_rev_string (s : string) :
  list_ascii_of_string (Py.rev_string s) = rev (list_ascii_of_string s).
Proof. unfold Py.rev_string. apply list_ascii_of_string_of_list_ascii. Qed.

Lemma lstrip_space_chars (s : string) :
  ∃ pre, list_ascii_of_string s = pre ++ list_ascii_of_string (Py.lstrip_space s)
         ∧ Forall (fun c => Py.isspace_bytes c = true) pre
         ∧ ∀ c, head (list_ascii_of_string (Py.lstrip_space s)) = Some c →
                Py.isspace_bytes c = false.
Proof.
  induction s as [|a s (pre & Hs & Hpre & Hhead)]; simpl.
  - exists []. by split_and!.
  - destruct (Py.isspace_bytes a) eqn:Ha.
    + exists (a :: pre). split_and!; [by rewrite Hs|by constructor|done].
    + exists []. split_and!; [done|constructor|]. by intros c [= <-].
Qed.

(** What [strip()] leaves: the text between the leading and the trailing
    blanks. *)
Lemma strip_chars (s : string) :
  ∃ pre post,
    list_ascii_of_string s = pre ++ list_ascii_of_string (Py.strip s) ++ post
    ∧ Forall (fun c => Py.isspace_bytes c = true) pre
    ∧ Forall (fun c => Py.isspace_bytes c = true) post
    ∧ (∀ c, head (list_ascii_of_string (Py.strip s)) = Some c → Py.isspace_bytes c = false)
    ∧ (∀ c, last (list_ascii_of_string (Py.strip s)) = Some c → Py.isspace_bytes c = false).
Proof.
  unfold Py.strip.
  destruct (lstrip_space_chars s) as (pre & Hs & Hpre & Hhead).
  destruct (lstrip_space_chars (Py.rev_string (Py.lstrip_space s)))
    as (pre2 & Ht & Hpre2 & Hhead2).
  rewrite chars_rev_string in Ht.
  set (a := list_ascii_of_string (Py.lstrip_space s)) in *.
  set (b := list_ascii_of_string
              (Py.lstrip_space (Py.rev_string (Py.lstrip_space s)))) in *.
  assert (a = rev b ++ rev pre2) as Ha.
  { rewrite <- (rev_involutive a), Ht. apply rev_app_distr. }
  rewrite chars_rev_string. fold b.
  exists pre, (rev pre2). split_and!.
  - by rewrite Hs, Ha.
  - done.
  - apply Forall_forall. intros c Hc%list_elem_of_In%in_rev%list_elem_of_In.
    by eapply Forall_forall in Hpre2.
  - intros c Hc. apply Hhead. rewrite Ha. destruct (rev b); [done|]. done.
  - intros c Hc. apply Hhead2. by rewrite <- last_rev.
Qed.

(** X6.  [bob_variables] raises in four situations and in no other: the
    version query cannot be run (its exception comes out); the version
    query exits with a non-zero status ([RuntimeError] quoting the stripped
    output); the version is known and the query for [libdir] cannot be
    run; both are fine and the query for [includedir] cannot be run.  A
    variable query that merely exits with a non-zero status raises
    nothing. *)
Theorem bob_variables_raises popen e :
  bob_variables popen = Raise e ↔
  popen modversion_cmd = Raise e
  ∨ (∃ pv, popen modversion_cmd = Ok pv ∧ returncode pv ≠ 0
           ∧ e = RuntimeError ("Cannot retrieve Bob version from pkg-config:"
                               +:+ newline +:+ Py.strip (output pv)))
  ∨ (∃ pv, popen modversion_cmd = Ok pv ∧ returncode pv = 0
           ∧ popen (variable_cmd "libdir") = Raise e)
  ∨ (∃ pv pl, popen modversion_cmd = Ok pv ∧ returncode pv = 0
              ∧ popen (variable_cmd "libdir") = Ok pl
              ∧ popen (variable_cmd "includedir") = Raise e).
Proof.
  rewrite bob_variables_unfold, !get_var_unfold.
  destruct (popen modversion_cmd) as [pv|e0].
  - destruct (returncode pv =? 0) eqn:Hrc.
    + apply Z.eqb_eq in Hrc.
      destruct (popen (variable_cmd "libdir")) as [pl|e1]; simpl.
      * destruct (popen (variable_cmd "includedir")) as [pi|e2]; simpl.
        -- split; [done|]. intros [?|[(? & [= <-] & ? & _)|[(? & _ & _ & ?)|(? & ? & _ & _ & _ & ?)]]];
             done.
        -- split.
           ++ intros [= <-]. do 3 right. by exists pv, pl.
           ++ intros [?|[(? & [= <-] & ? & _)|[(? & _ & _ & ?)|(? & ? & _ & _ & _ & ?)]]];
                try done. congruence.
      * split.
        -- intros [= <-]. do 2 right. left. by exists pv.
        -- intros [?|[(? & [= <-] & ? & _)|[(? & _ & _ & ?)|(? & ? & _ & _ & ? & _)]]];
             try done. congruence.
    + apply Z.eqb_neq in Hrc. split.
      * intros [= <-]. right. left. by exists pv.
      * intros [?|[(? & [= <-] & _ & ->)|[(? & [= <-] & ? & _)|(? & ? & [= <-] & ? & _)]]];
          done.
  - split.
    + intros [= <-]. by left.
    + intros [[= <-]|[(? & ? & _)|[(? & ? & _)|(? & ? & ? & _)]]]; done.
Qed.

(** X7.  A record returned by [bob_variables] has exactly the three
    fields [version], [base_libdir] and [base_includedir], and every
    value that is not [None] is stripped: it neither starts nor ends with
    a blank character. *)
Theorem bob_variables_fields_stripped popen kw :
  bob_variables popen = Ok kw →
  dom kw = {[ "version"; "base_libdir"; "base_includedir" ]}
  ∧ ∀ k v, kw !! k = Some (Some v) →
           (∀ c, head (list_ascii_of_string v) = Some c → Py.isspace_bytes c = false)
           ∧ (∀ c, last (list_ascii_of_string v) = Some c → Py.isspace_bytes c = false).
Proof.
  rewrite bob_variables_unfold, !get_var_unfold.
  destruct (popen modversion_cmd) as [pv|e0]; [|done].
  destruct (returncode pv =? 0); [|done].
  destruct (popen (variable_cmd "libdir")) as [pl|e1]; simpl; [|done].
  destruct (popen (variable_cmd "includedir")) as [pi|e2]; simpl; [|done].
  intros [= <-]. split.
  - rewrite !dom_insert_L, dom_empty_L. set_solver.
  - assert (∀ s,
              (∀ c, head (list_ascii_of_string (Py.strip s)) = Some c →
                    Py.isspace_bytes c = false)
              ∧ (∀ c, last (list_ascii_of_string (Py.strip s)) = Some c →
                      Py.isspace_bytes c = false))
      as Hstrip.
    { intros s. by destruct (strip_chars s) as (? & ? & _ & _ & _ & ? & ?). }
    intros k v. rewrite !lookup_insert, lookup_empty.
    repeat case_decide; try done.
    + destruct (returncode pi =? 0); [|done]. intros [= <-]. apply Hstrip.
    + destruct (returncode pl =? 0); [|done]. intros [= <-]. apply Hstrip.
    + intros [= <-]. apply Hstrip.
Qed.

Lemma bob_variables_fields_stripped_witness :
  dom blank_version_record = {[ "version"; "base_libdir"; "base_includedir" ]}
  ∧ ∀ k v, blank_version_record !! k = Some (Some v) →
           (∀ c, head (list_ascii_of_string v) = Some c → Py.isspace_bytes c = false)
           ∧ (∀ c, last (list_ascii_of_string v) = Some c → Py.isspace_bytes c = false).
Proof.
  apply (bob_variables_fields_stripped popen_blank_version blank_version_record).
  vm_compute. reflexivity.
Defined.

(** ** The extension descriptor: what every descriptor satisfies *)

Lemma startswith_iff (p s : string) :
  Py.startswith p s = true ↔ ∃ post, s = p +:+ post.
Proof.
  revert s. induction p as [|a p IH]; intros s; simpl.
  - split; [eauto|done].
  - destruct s as [|b s].
    + split; [done|]. by intros (post & ?).
    + rewrite andb_true_iff, IH. split.
      * intros [->%Ascii.eqb_eq (post & ->)]. eauto.
      * intros (post & [= -> ->]). split; [apply Ascii.eqb_refl|eauto].
Qed.

Lemma find_from_found (sub s : string) (i : Z) :
  0 ≤ i →
  Py.find_from i sub s ≠ -1 ↔ ∃ pre post, s = pre +:+ sub +:+ post.
Proof.
  revert i. induction s as [|c s IH]; intros i Hi; cbn [Py.find_from].
  - destruct (Py.startswith sub "") eqn:Hs.
    + apply startswith_iff in Hs as (post & Hs). split; [|lia].
      intros _. by exists "", post.
    + split; [done|]. intros (pre & post & Heq).
      destruct pre; [|done]. simpl in Heq.
      assert (Py.startswith sub "" = true) by (apply startswith_iff; eauto). congruence.
  - destruct (Py.startswith sub (String c s)) eqn:Hs.
    + apply startswith_iff in Hs as (post & Hs). split; [|lia].
      intros _. by exists "", post.
    + rewrite IH by lia. split.
      * intros (pre & post & ->). by exists (String c pre), post.
      * intros ([|a pre] & post & Heq).
        -- simpl in Heq.
           assert (Py.startswith sub (String c s) = true)
             by (apply startswith_iff; eauto).
           congruence.
        -- injection Heq as -> ->. eauto.
Qed.

Lemma find_found (s sub : string) :
  Py.find s sub ≠ -1 ↔ ∃ pre post, s = pre +:+ sub +:+ post.
Proof. apply find_from_found. lia. Qed.

Lemma NoDup_existing (P : string → Prop) `{∀ x, Decision (P x)} (o : option (list string)) :
  (∀ v, o = Some v → NoDup v) → NoDup (filter P (default [] o)).
Proof.
  intros Hv. apply NoDup_filter. destruct o as [v|]; simpl; [by apply Hv|constructor].
Qed.

Lemma pkgconfig_bucket_NoDup popen package pc k v :
  pkgconfig popen package = Ok pc → pc !! k = Some v → NoDup v.
Proof.
  unfold pkgconfig.
  destruct (popen _) as [proc|e]; simpl; [|done].
  destruct (returncode proc =? 0); simpl; intros [= <-].
  - rewrite classify_lookup. intros Hv. by apply bucket_of_Some in Hv as (? & _).
  - by rewrite lookup_empty.
Qed.

Section DescriptorFacts.

Variable popen : list string → result completed.
Variable DESTDIR : string.
Variable BOB : gmap string (option string).
Variable version_info : nat * nat.
Variable path_exists : string → bool.
Variable platform_system : string.
Variable numpy_include : string.

Local Abbreviation package pc_file :=
  (pc_file +:+ pretty (fst version_info) +:+ pretty (snd version_info)).
Local Abbreviation existing pc key :=
  (filter (fun k => path_exists k = true) (default [] (pc !! key))).

(** What a returned descriptor was built from. *)
Lemma setup_extension_Ok ext pc_file d :
  setup_extension popen DESTDIR BOB version_info path_exists
    platform_system numpy_include ext pc_file = Ok d →
  ∃ pc libs caged_l caged_i,
    pkgconfig popen (package pc_file) = Ok pc
    ∧ pc !! "libraries" = Some libs
    ∧ (if decide (DESTDIR = "") then caged_l = [] ∧ caged_i = []
       else ∃ l i, caged_l = [l] ∧ caged_i = [i])
    ∧ d = {| ext_name := ext;
             sources := if negb (Py.find platform_system "CYGWIN" =? -1)
                        then ["empty.c"] else [];
             language := "c++";
             include_dirs := (caged_i ++ existing pc "include_dirs") ++ [numpy_include];
             library_dirs := caged_l ++ existing pc "library_dirs";
             runtime_library_dirs := caged_l ++ existing pc "library_dirs";
             libraries := libs |}.
Proof.
  unfold setup_extension.
  destruct (pkgconfig popen (package pc_file)) as [pc|e] eqn:Hpc; simpl; [|done].
  destruct (String.length DESTDIR =? 0)%nat eqn:Hlen; simpl.
  - apply length_zero in Hlen. unfold subscript.
    destruct (pc !! "libraries") as [libs|] eqn:Hlibs; simpl; [|done].
    intros [= <-]. exists pc, libs, [], []. rewrite decide_True by done. done.
  - assert (DESTDIR ≠ "") as Hne.
    { intros Heq%length_zero. congruence. }
    unfold bob_path.
    destruct (BOB !! "base_libdir") as [[l|]|]; simpl; [|done..].
    destruct (BOB !! "base_includedir") as [[i|]|]; simpl; [|done..].
    unfold subscript.
    destruct (pc !! "libraries") as [libs|] eqn:Hlibs; simpl; [|done].
    intros [= <-]. eexists pc, libs, [_], [_]. rewrite decide_False by done.
    split_and!; [done|done|eauto|done].
Qed.

(** X8.  Without a caging root the toolbox record is never read: the
    builder gives the same result for every record, and when the package
    lists libraries it returns the descriptor whose directories are just
    the discovered ones that exist (numpy's include directory last). *)
Theorem setup_extension_uncaged ext pc_file :
  DESTDIR = "" →
  (∀ BOB', setup_extension popen DESTDIR BOB' version_info path_exists
             platform_system numpy_include ext pc_file
           = setup_extension popen DESTDIR BOB version_info path_exists
               platform_system numpy_include ext pc_file)
  ∧ (∀ pc libs,
        pkgconfig popen (package pc_file) = Ok pc →
        pc !! "libraries" = Some libs →
        ∃ d, setup_extension popen DESTDIR BOB version_info path_exists
               platform_system numpy_include ext pc_file = Ok d
             ∧ library_dirs d = existing pc "library_dirs"
             ∧ include_dirs d = existing pc "include_dirs" ++ [numpy_include]
             ∧ libraries d = libs).
Proof.
  intros ->. split.
  - intros BOB'. unfold setup_extension.
    by destruct (pkgconfig popen (package pc_file)).
  - intros pc libs Hpc Hlibs. unfold setup_extension. rewrite Hpc. simpl.
    unfold subscript. rewrite Hlibs. simpl. eauto.
Qed.

(** X9.  Every descriptor the builder returns carries the name it was
    asked for and the language [c++], uses its library directories as
    run-time library directories too, ends its include directories with
    numpy's, lists no library twice, and has the placeholder source
    [empty.c] exactly when the name of the platform contains [CYGWIN]
    (no source at all otherwise). *)
Theorem setup_extension_invariants ext pc_file d :
  setup_extension popen DESTDIR BOB version_info path_exists
    platform_system numpy_include ext pc_file = Ok d →
  ext_name d = ext
  ∧ language d = "c++"
  ∧ runtime_library_dirs d = library_dirs d
  ∧ last (include_dirs d) = Some numpy_include
  ∧ NoDup (libraries d)
  ∧ (sources d = ["empty.c"] ∨ sources d = [])
  ∧ (sources d = ["empty.c"] ↔ ∃ pre post, platform_system = pre +:+ "CYGWIN" +:+ post).
Proof.
  intros (pc & libs & cl & ci & Hpc & Hlibs & _ & ->)%setup_extension_Ok. simpl.
  split_and!; [done|done|done|apply last_snoc| | |].
  - by eapply pkgconfig_bucket_NoDup.
  - destruct (negb _); auto.
  - rewrite <- find_found.
    destruct (Py.find platform_system "CYGWIN" =? -1) eqn:Hf; simpl.
    + apply Z.eqb_eq in Hf. split; [done|]. by intros [].
    + apply Z.eqb_neq in Hf. done.
Qed.

(** X10.  In every descriptor, the library directories after the caged
    one (all of them without a caging root) exist and are pairwise
    distinct, and so are the include directories between the caged one and
    numpy's. *)
Theorem setup_extension_dirs_exist ext pc_file d :
  setup_extension popen DESTDIR BOB version_info path_exists
    platform_system numpy_include ext pc_file = Ok d →
  ∃ caged_l caged_i ldirs idirs,
    library_dirs d = caged_l ++ ldirs
    ∧ include_dirs d = caged_i ++ idirs ++ [numpy_include]
    ∧ length caged_l = (if decide (DESTDIR = "") then 0 else 1)%nat
    ∧ length caged_i = length caged_l
    ∧ Forall (fun k => path_exists k = true) (ldirs ++ idirs)
    ∧ NoDup ldirs ∧ NoDup idirs.
Proof.
  intros (pc & libs & cl & ci & Hpc & Hlibs & Hcaged & ->)%setup_extension_Ok. simpl.
  exists cl, ci, (existing pc "library_dirs"), (existing pc "include_dirs").
  split_and!.
  - done.
  - by rewrite <- app_assoc.
  - destruct (decide (DESTDIR = "")); [by destruct Hcaged as [-> _]|].
    by destruct Hcaged as (? & ? & -> & _).
  - destruct (decide (DESTDIR = "")); [by destruct Hcaged as [-> ->]|].
    by destruct Hcaged as (? & ? & -> & ->).
  - apply Forall_app. split; apply Forall_forall; by intros k [? _]%list_elem_of_filter.
  - apply NoDup_existing. intros v Hv. by eapply pkgconfig_bucket_NoDup.
  - apply NoDup_existing. intros v Hv. by eapply pkgconfig_bucket_NoDup.
Qed.

(** X11.  The builder asks the provider for one package only, the name
    it was given followed by the two components of the interpreter
    version: providers that agree on that query give the same result.
    The libraries of a returned descriptor are the [-l] tokens of the
    answer as [str.split] cuts it, without the prefix, each at its first
    occurrence. *)
Theorem setup_extension_query ext pc_file :
  (∀ popen',
      popen' ["pkg-config"; "--libs"; "--cflags"; package pc_file]
        = popen ["pkg-config"; "--libs"; "--cflags"; package pc_file] →
      setup_extension popen' DESTDIR BOB version_info path_exists
        platform_system numpy_include ext pc_file
      = setup_extension popen DESTDIR BOB version_info path_exists
          platform_system numpy_include ext pc_file)
  ∧ (∀ d, setup_extension popen DESTDIR BOB version_info path_exists
            platform_system numpy_include ext pc_file = Ok d →
          ∃ proc,
            popen ["pkg-config"; "--libs"; "--cflags"; package pc_file] = Ok proc
            ∧ returncode proc = 0
            ∧ libraries d =
                first_occurrences
                  (map (Py.drop 2) (filter (fun t => Py.take 2 t = "-l")
                                      (Py.split (output proc))))
            ∧ ∀ x, x ∈ libraries d ↔ "-l" +:+ x ∈ Py.split (output proc)).
Proof.
  split.
  - intros popen' Hsame. unfold setup_extension, pkgconfig. by rewrite Hsame.
  - intros d (pc & libs & cl & ci & Hpc & Hlibs & _ & ->)%setup_extension_Ok. simpl.
    unfold pkgconfig in Hpc.
    destruct (popen _) as [proc|e]; simpl in Hpc; [|done].
    destruct (returncode proc =? 0) eqn:Hrc; simpl in Hpc; injection Hpc as <-;
      [|by rewrite lookup_empty in Hlibs].
    apply Z.eqb_eq in Hrc. exists proc.
    assert (libs = first_occurrences
                     (map (Py.drop 2) (filter (fun t => Py.take 2 t = "-l")
                                         (Py.split (output proc))))) as ->.
    { rewrite classify_lookup in Hlibs.
      rewrite (routed_flag "-l" "libraries") in Hlibs; [|done| |done].
      - symmetry. revert Hlibs. generalize (map (Py.drop 2)
          (filter (fun t => Py.take 2 t = "-l") (Py.split (output proc)))).
        intros [|i items]; [done|]. by intros [= <-].
      - intros p. rewrite flag_map_lookup. repeat case_decide; congruence. }
    split_and!; [done|done|done|].
    intros x. rewrite first_occurrences_elem, list_elem_of_In, in_map_iff. split.
    + intros (t & <- & [<- ?]%list_elem_of_In%list_elem_of_filter). by rewrite take_drop.
    + intros Hx. exists ("-l" +:+ x). split; [done|].
      apply list_elem_of_In. by apply list_elem_of_filter.
Qed.

End DescriptorFacts.

Lemma core_descriptor_built :
  setup_extension popen_core "" BOB_usr (2%nat, 7%nat) (fun _ => true)
    "Linux" "/numpy/include" "bob.core._core" "bob-core-py" = Ok core_descriptor.
Proof. vm_compute. reflexivity. Defined.

Lemma setup_extension_uncaged_witness :
  setup_extension popen_core "" ∅ (2%nat, 7%nat) (fun _ => true)
    "Linux" "/numpy/include" "bob.core._core" "bob-core-py"
  = setup_extension popen_core "" BOB_usr (2%nat, 7%nat) (fun _ => true)
      "Linux" "/numpy/include" "bob.core._core" "bob-core-py".
Proof.
  apply (proj1 (setup_extension_uncaged popen_core "" BOB_usr (2%nat, 7%nat)
                  (fun _ => true) "Linux" "/numpy/include"
                  "bob.core._core" "bob-core-py" eq_refl) ∅).
Defined.

Lemma setup_extension_invariants_witness :
  ext_name core_descriptor = "bob.core._core"
  ∧ language core_descriptor = "c++"
  ∧ runtime_library_dirs core_descriptor = library_dirs core_descriptor
  ∧ last (include_dirs core_descriptor) = Some "/numpy/include"
  ∧ NoDup (libraries core_descriptor)
  ∧ (sources core_descriptor = ["empty.c"] ∨ sources core_descriptor = [])
  ∧ (sources core_descriptor = ["empty.c"] ↔ ∃ pre post, "Linux" = pre +:+ "CYGWIN" +:+ post).
Proof.
  apply (setup_extension_invariants popen_core "" BOB_usr (2%nat, 7%nat)
           (fun _ => true) "Linux" "/numpy/include" "bob.core._core" "bob-core-py").
  exact core_descriptor_built.
Defined.

Lemma setup_extension_dirs_exist_witness :
  ∃ caged_l caged_i ldirs idirs,
    library_dirs core_descriptor = caged_l ++ ldirs
    ∧ include_dirs core_descriptor = caged_i ++ idirs ++ ["/numpy/include"]
    ∧ length caged_l = 0%nat
    ∧ length caged_i = length caged_l
    ∧ Forall (fun k => (fun _ : string => true) k = true) (ldirs ++ idirs)
    ∧ NoDup ldirs ∧ NoDup idirs.
Proof.
  apply (setup_extension_dirs_exist popen_core "" BOB_usr (2%nat, 7%nat)
           (fun _ => true) "Linux" "/numpy/include" "bob.core._core" "bob-core-py").
  exact core_descriptor_built.
Defined.

(** ** The build command: the verdict, the flag and the compiler object *)

Section BuildMore.

Variable mkstemp : gset string → string.
Variable spawn : list string → gset string → result completed * gset string.
Variable base_build_extension :
  build_ext → Extension → gset string → result (gset string).

Local Abbreviation build1 := (build_extension mkstemp spawn base_build_extension).
Local Abbreviation builds := (build_extensions mkstemp spawn base_build_extension).
Local Abbreviation clean so := (filter (fun k => ld_ok k = true) so).
Local Abbreviation probe_cmd linker w :=
  (linker ++ ["-Wl,--no-as-needed"; "-lm"; "-o"; mkstemp (files w)]).

(** X12.  A call of [build_extension] that returns leaves a compiler
    whose [dll_libraries] is never [None]: a [None] has become the empty
    list, a list is kept, and a compiler without the attribute still has
    none. *)
Theorem build_extension_dll_libraries ext self w self' w' :
  build_extension mkstemp spawn base_build_extension ext (self, w)
    = (Ok (), (self', w')) →
  dll_libraries (compiler self') ≠ Some None
  ∧ (dll_libraries (compiler self) = Some None →
     dll_libraries (compiler self') = Some (Some []))
  ∧ (dll_libraries (compiler self) ≠ Some None →
     dll_libraries (compiler self') = dll_libraries (compiler self)).
Proof.
  unfold build_extension.
  destruct (linker_is_smart (set_linker_so _ self)) as [b|].
  - destruct (dll_libraries (compiler (set_linker_so _ self))) as [[d|]|] eqn:Hd;
      simpl in Hd; rewrite Hd;
      destruct (base_build_extension _ _ _) as [fs|e]; intros [= <- <-]; simpl;
      rewrite ?Hd; done.
  - destruct (linker_can_remove_symbols _ _ _ _) as [[b|e] w1]; [|done].
    destruct b; simpl;
      destruct (dll_libraries (compiler self)) as [[d|]|] eqn:Hd;
      destruct (base_build_extension _ _ _) as [fs|e]; intros [= <- <-]; simpl;
      rewrite ?Hd; done.
Qed.

(** X13.  On a command whose cache is unset, when the link attempt of
    the probe runs to completion the verdict is cached at once, whether or
    not the build that follows succeeds: it is true exactly when the exit
    status was zero, and the capability flag is appended to the sanitised
    linker invocation exactly then. *)
Theorem build_extension_verdict ext self w proc fs r self' w' :
  linker_is_smart self = None →
  spawn (probe_cmd (clean (linker_so (compiler self))) w)
        ({[mkstemp (files w)]} ∪ files w) = (Ok proc, fs) →
  build_extension mkstemp spawn base_build_extension ext (self, w)
    = (r, (self', w')) →
  linker_is_smart self' = Some (bool_decide (returncode proc = 0))
  ∧ linker_so (compiler self') =
      clean (linker_so (compiler self))
        ++ (if bool_decide (returncode proc = 0) then ["-Wl,--no-as-needed"] else [])
  ∧ base_calls w' = base_calls w ++ [linker_so (compiler self')].
Proof.
  intros Hb Hspawn. unfold build_extension.
  assert (linker_is_smart (set_linker_so (clean (linker_so (compiler self))) self)
          = None) as -> by done.
  unfold linker_can_remove_symbols. simpl. rewrite Hspawn. simpl.
  destruct (returncode proc =? 0) eqn:Hrc.
  - apply Z.eqb_eq in Hrc. rewrite bool_decide_eq_true_2 by done. simpl.
    destruct (dll_libraries (compiler self)) as [[d|]|];
      destruct (base_build_extension _ _ _) as [fs'|e]; by intros [= <- <- <-].
  - apply Z.eqb_neq in Hrc. rewrite bool_decide_eq_false_2 by done. simpl.
    destruct (dll_libraries (compiler self)) as [[d|]|];
      destruct (base_build_extension _ _ _) as [fs'|e]; intros [= <- <- <-]; simpl;
      by rewrite app_nil_r.
Qed.

(** X14.  On a command whose cache is unset, when the link attempt of
    the probe raises, [build_extension] raises the same exception without
    reaching the base build: the cache stays unset (the next build would
    probe again), [dll_libraries] is untouched, and the linker invocation
    keeps its sanitised form. *)
Theorem build_extension_probe_raises ext self w e fs :
  linker_is_smart self = None →
  spawn (probe_cmd (clean (linker_so (compiler self))) w)
        ({[mkstemp (files w)]} ∪ files w) = (Raise e, fs) →
  ∃ self' w',
    build_extension mkstemp spawn base_build_extension ext (self, w)
      = (Raise e, (self', w'))
    ∧ linker_is_smart self' = None
    ∧ linker_so (compiler self') = clean (linker_so (compiler self))
    ∧ dll_libraries (compiler self') = dll_libraries (compiler self)
    ∧ base_calls w' = base_calls w
    ∧ probes w' = probes w ++ [probe_cmd (clean (linker_so (compiler self))) w].
Proof.
  intros Hb Hspawn. unfold build_extension.
  assert (linker_is_smart (set_linker_so (clean (linker_so (compiler self))) self)
          = None) as -> by done.
  unfold linker_can_remove_symbols. simpl. rewrite Hspawn. simpl.
  eexists _, _. split; [done|]. by split_and!.
Qed.

Lemma ld_ok_clean (so : list string) : Forall (fun k => ld_ok k = true) (clean so).
Proof. apply Forall_forall. by intros k [? _]%list_elem_of_filter. Qed.

(** A run of builds that returns, on a command whose cache is set and
    whose linker invocation is already sanitised. *)
Lemma build_extensions_steady exts self w b self' w' :
  linker_is_smart self = Some b →
  Forall (fun k => ld_ok k = true) (linker_so (compiler self)) →
  builds exts (self, w) = (Ok (), (self', w')) →
  linker_so (compiler self') = linker_so (compiler self)
  ∧ linker_is_smart self' = Some b
  ∧ base_calls w' =
      base_calls w ++ replicate (length exts) (linker_so (compiler self)).
Proof.
  revert self w. induction exts as [|ext rest IH]; intros self w Hb Hok;
    cbn [build_extensions].
  - intros [= <- <-]. simpl. by rewrite app_nil_r.
  - destruct (build1 ext (self, w)) as [r1 [self1 w1]] eqn:H1.
    destruct (build_extension_cached _ _ _ _ _ _ _ _ _ _ Hb H1)
      as (Hb1 & _ & _ & Hso1 & Hc1).
    rewrite (filter_all _ _ Hok) in Hso1.
    destruct r1 as [[]|e]; [|done].
    intros Hrest. apply IH in Hrest as (Hso & Hb' & Hc); [|done|by rewrite Hso1].
    rewrite Hso, Hb', Hc, Hc1, Hso1. split_and!; [done|done|].
    by rewrite <- app_assoc.
Qed.

(** X15.  Over a run of one or more builds that all return, started on a
    command whose cache is unset, the capability flag is appended at most
    once, however many extensions are built: the final linker invocation
    is the sanitised one followed by the flag exactly when the verdict is
    true, and the base build ran once per extension, each time with that
    same invocation. *)
Theorem build_extensions_flag_once exts self w self' w' :
  linker_is_smart self = None →
  exts ≠ [] →
  build_extensions mkstemp spawn base_build_extension exts (self, w)
    = (Ok (), (self', w')) →
  ∃ b, linker_is_smart self' = Some b
       ∧ linker_so (compiler self') =
           clean (linker_so (compiler self))
             ++ (if b then ["-Wl,--no-as-needed"] else [])
       ∧ base_calls w' =
           base_calls w ++ replicate (length exts) (linker_so (compiler self')).
Proof.
  intros Hb Hne. destruct exts as [|ext rest]; [done|]. cbn [build_extensions].
  destruct (build1 ext (self, w)) as [r1 [self1 w1]] eqn:H1.
  destruct (build_extension_fresh _ _ _ _ _ _ _ _ _ Hb H1) as (_ & _ & Hcase).
  destruct r1 as [[]|e]; [|done].
  destruct Hcase as [(e & ? & _)|(b & Hb1 & Hso1 & Hc1)]; [done|].
  intros Hrest.
  apply (build_extensions_steady _ _ _ b) in Hrest as (Hso & Hb' & Hc); [|done|].
  - exists b. rewrite Hb', Hso, Hc, Hc1, Hso1. split_and!; [done|done|].
    by rewrite <- app_assoc.
  - rewrite Hso1. apply Forall_app. split; [apply ld_ok_clean|].
    destruct b; by repeat constructor.
Qed.

End BuildMore.

Lemma build_extension_dll_libraries_witness :
  dll_libraries (compiler (fst (snd single_build))) ≠ Some None
  ∧ (dll_libraries (compiler (build_ext_init cc_cygwin)) = Some None →
     dll_libraries (compiler (fst (snd single_build))) = Some (Some []))
  ∧ (dll_libraries (compiler (build_ext_init cc_cygwin)) ≠ Some None →
     dll_libraries (compiler (fst (snd single_build)))
     = dll_libraries (compiler (build_ext_init cc_cygwin))).
Proof.
  apply (build_extension_dll_libraries mkstemp_demo spawn_ok base_ok
           (ext_demo "bob.core._core" "bob_core") (build_ext_init cc_cygwin) world0
           (fst (snd single_build)) (snd (snd single_build))).
  reflexivity.
Defined.

Lemma build_extension_verdict_witness :
  linker_is_smart (fst (snd single_build)) = Some (bool_decide (0 = 0))
  ∧ linker_so (compiler (fst (snd single_build))) = ["gcc"; "-shared"; "-Wl,--no-as-needed"]
  ∧ base_calls (snd (snd single_build)) = [["gcc"; "-shared"; "-Wl,--no-as-needed"]].
Proof.
  apply (build_extension_verdict mkstemp_demo spawn_ok base_ok
           (ext_demo "bob.core._core" "bob_core") (build_ext_init cc_cygwin) world0
           {| output := ""; returncode := 0 |} ({[ "/tmp/tmpk3v9qz" ]} ∪ ∅)
           (fst single_build) (fst (snd single_build)) (snd (snd single_build))).
  - reflexivity.
  - reflexivity.
  - reflexivity.
Defined.

Lemma build_extension_probe_raises_witness :
  ∃ self' w',
    build_extension mkstemp_demo spawn_missing base_ok (ext_demo "bob.core._core" "bob_core")
      (build_ext_init cc_cygwin, world0)
      = (Raise (OSError "[Errno 2] No such file or directory"), (self', w'))
    ∧ linker_is_smart self' = None
    ∧ linker_so (compiler self') = ["gcc"; "-shared"]
    ∧ dll_libraries (compiler self') = Some None
    ∧ base_calls w' = []
    ∧ probes w' = [["gcc"; "-shared"; "-Wl,--no-as-needed"; "-lm"; "-o"; "/tmp/tmpk3v9qz"]].
Proof.
  apply (build_extension_probe_raises mkstemp_demo spawn_missing base_ok
           (ext_demo "bob.core._core" "bob_core") (build_ext_init cc_cygwin) world0
           (OSError "[Errno 2] No such file or directory") ({[ "/tmp/tmpk3v9qz" ]} ∪ ∅)).
  - reflexivity.
  - reflexivity.
Defined.

Lemma build_extensions_flag_once_witness :
  ∃ b, linker_is_smart (fst (snd demo_run)) = Some b
       ∧ linker_so (compiler (fst (snd demo_run))) =
           ["gcc"; "-shared"; "-pthread"] ++ (if b then ["-Wl,--no-as-needed"] else [])
       ∧ base_calls (snd (snd demo_run)) =
           [] ++ replicate 2 (linker_so (compiler (fst (snd demo_run)))).
Proof.
  apply (build_extensions_flag_once mkstemp_demo spawn_ok base_ok demo_exts
           (build_ext_init cc) world0 (fst (snd demo_run)) (snd (snd demo_run))).
  - reflexivity.
  - discriminate.
  - reflexivity.
Defined.

(** ** The module level: requirements, extensions and data files *)

(** X16.  [argparse] is required exactly for the interpreters older than
    2.7 and for 3.0 and 3.1; exactly one imaging package is required,
    [pillow] when it is installed and [pil] when it is not; and
    [install_requires] names no package twice. *)
Theorem EXTRA_REQUIREMENTS_spec version_info require_pillow l :
  EXTRA_REQUIREMENTS version_info require_pillow = Ok l →
  ("argparse" ∈ l ↔
     (fst version_info < 2
      ∨ (fst version_info = 2 ∧ snd version_info < 7)
      ∨ (fst version_info = 3 ∧ snd version_info < 2))%nat)
  ∧ ("pillow" ∈ l ↔ require_pillow = Distribution_found)
  ∧ ("pil" ∈ l ↔ require_pillow = DistributionNotFound)
  ∧ NoDup (install_requires l).
Proof.
  destruct version_info as [major minor]. unfold EXTRA_REQUIREMENTS, tuple_lt, tuple_le.
  simpl fst. simpl snd.
  assert ((major <? 2)%nat || (major =? 2)%nat && (minor <? 7)%nat
          || ((3 <? major)%nat || (3 =? major)%nat && (0 <=? minor)%nat)
             && ((major <? 3)%nat || (major =? 3)%nat && (minor <? 2)%nat) = true
          ↔ (major < 2 ∨ (major = 2 ∧ minor < 7) ∨ (major = 3 ∧ minor < 2))%nat) as Hold.
  { rewrite !orb_true_iff, !andb_true_iff, !orb_true_iff, !andb_true_iff.
    rewrite !Nat.ltb_lt, !Nat.eqb_eq, Nat.leb_le. lia. }
  destruct (_ || _) eqn:Hb.
  - destruct require_pillow; intros [= <-]; simpl;
      (split_and!;
       [ split; [intros _; by apply Hold|intros _; set_solver]
       | split; first [done | set_solver]
       | split; first [done | set_solver]
       | apply (bool_decide_unpack _); vm_compute; exact I ]).
  - assert (¬ (major < 2 ∨ (major = 2 ∧ minor < 7) ∨ (major = 3 ∧ minor < 2))%nat)
      as Hnew by (rewrite <- Hold; congruence).
    destruct require_pillow; intros [= <-]; simpl;
      (split_and!;
       [ split; [set_solver|done]
       | split; first [done | set_solver]
       | split; first [done | set_solver]
       | apply (bool_decide_unpack _); vm_compute; exact I ]).
Qed.

Lemma EXTRA_REQUIREMENTS_spec_witness :
  ("argparse" ∈ ["argparse"; "pil"] ↔
     (fst (2, 6) < 2 ∨ (fst (2, 6) = 2 ∧ snd (2, 6) < 7)
      ∨ (fst (2, 6) = 3 ∧ snd (2, 6) < 2))%nat)
  ∧ ("pillow" ∈ ["argparse"; "pil"] ↔ DistributionNotFound = Distribution_found)
  ∧ ("pil" ∈ ["argparse"; "pil"] ↔ DistributionNotFound = DistributionNotFound)
  ∧ NoDup (install_requires ["argparse"; "pil"]).
Proof.
  apply (EXTRA_REQUIREMENTS_spec (2%nat, 6%nat) DistributionNotFound ["argparse"; "pil"]).
  reflexivity.
Defined.

Section ModuleLevelFacts.

Variable popen : list string → result completed.
Variable DESTDIR : string.
Variable BOB : gmap string (option string).
Variable version_info : nat * nat.
Variable path_exists : string → bool.
Variable platform_system : string.
Variable numpy_include : string.

Local Abbreviation setup1 :=
  (setup_extension popen DESTDIR BOB version_info path_exists
     platform_system numpy_include).
Local Abbreviation setup_list :=
  (setup_extensions popen DESTDIR BOB version_info path_exists
     platform_system numpy_include).

Lemma setup_extensions_names l exts :
  setup_list l = Ok exts → ext_name <$> exts = fst <$> l.
Proof.
  revert exts. induction l as [|[name pc_file] l IH]; intros exts; simpl.
  - by intros [= <-].
  - destruct (setup1 name pc_file) as [ext|e] eqn:Hext; simpl; [|done].
    destruct (setup_list l) as [rest|e]; simpl; [|done].
    intros [= <-]. rewrite !fmap_cons, (IH rest) by done. f_equal.
    by apply setup_extension_Ok in Hext as (? & ? & ? & ? & _ & _ & _ & ->).
Qed.

Lemma setup_extensions_raises l name pc_file e :
  (name, pc_file) ∈ l →
  setup1 name pc_file = Raise e →
  ∃ e', setup_list l = Raise e'.
Proof.
  intros Hin Hraise. induction l as [|[name' pc_file'] l IH]; simpl.
  - by apply elem_of_nil in Hin.
  - apply elem_of_cons in Hin as [[= <- <-]|Hin].
    + rewrite Hraise. simpl. eauto.
    + destruct (setup1 name' pc_file') as [ext|e1]; simpl; [|eauto].
      destruct (IH Hin) as [e' ->]. simpl. eauto.
Qed.

(** X17.  When the module level is reached, the list of extensions is the
    ten core extensions in the order of the script, followed by the
    visioner extension exactly when the query for [bob-visioner] returned
    a non-empty dictionary; the two visioner data files are shipped in
    exactly that case, after the files found and the four hand-picked
    ones. *)
Theorem EXTENSIONS_DATAFILES_visioner found exts data :
  EXTENSIONS_DATAFILES popen DESTDIR BOB version_info path_exists
    platform_system numpy_include found = Ok (exts, data) →
  ∃ core visioner,
    pkgconfig popen "bob-visioner" = Ok visioner
    ∧ ext_name <$> core = fst <$> core_extensions
    ∧ length core = 10%nat
    ∧ ((visioner = ∅ ∧ exts = core ∧ data = found ++ handpicked_datafiles)
       ∨ (visioner ≠ ∅
          ∧ (∃ ext, exts = core ++ [ext] ∧ ext_name ext = "bob.visioner._visioner")
          ∧ data = (found ++ handpicked_datafiles) ++ visioner_datafiles)).
Proof.
  unfold EXTENSIONS_DATAFILES.
  destruct (setup_list core_extensions) as [core|e] eqn:Hcore; simpl; [|done].
  destruct (pkgconfig popen "bob-visioner") as [visioner|e]; simpl; [|done].
  pose proof (setup_extensions_names _ _ Hcore) as Hnames.
  assert (length core = 10%nat) as Hlen.
  { apply (f_equal length) in Hnames. by rewrite !length_fmap in Hnames. }
  destruct (bool_decide (visioner = ∅)) eqn:Hvis; simpl.
  - apply bool_decide_eq_true in Hvis. intros [= <- <-].
    exists core, visioner. split_and!; [done|done|done|]. by left.
  - apply bool_decide_eq_false in Hvis.
    destruct (setup1 "bob.visioner._visioner" "bob-visioner-py") as [ext|e] eqn:Hext;
      simpl; [|done].
    intros [= <- <-]. exists core, visioner. split_and!; [done|done|done|].
    right. split_and!; [done| |done]. exists ext. split; [done|].
    by apply setup_extension_Ok in Hext as (? & ? & ? & ? & _ & _ & _ & ->).
Qed.

(** X18.  The module level is all or nothing: when the builder raises for
    one of the ten core extensions, or when the query for [bob-visioner]
    returns a non-empty dictionary and the builder raises for the visioner
    extension (which queries the versioned [bob-visioner-py] package, not
    [bob-visioner]), no list of extensions is produced at all. *)
Theorem EXTENSIONS_all_or_nothing found :
  (∀ name pc_file e,
      (name, pc_file) ∈ core_extensions →
      setup_extension popen DESTDIR BOB version_info path_exists
        platform_system numpy_include name pc_file = Raise e →
      ∃ e', EXTENSIONS_DATAFILES popen DESTDIR BOB version_info path_exists
              platform_system numpy_include found = Raise e')
  ∧ (∀ visioner e,
      pkgconfig popen "bob-visioner" = Ok visioner →
      visioner ≠ ∅ →
      setup_extension popen DESTDIR BOB version_info path_exists
        platform_system numpy_include "bob.visioner._visioner" "bob-visioner-py"
        = Raise e →
      ∃ e', EXTENSIONS_DATAFILES popen DESTDIR BOB version_info path_exists
              platform_system numpy_include found = Raise e').
Proof.
  unfold EXTENSIONS_DATAFILES. split.
  - intros name pc_file e Hin Hraise.
    destruct (setup_extensions_raises _ _ _ _ Hin Hraise) as [e' ->]. simpl. eauto.
  - intros visioner e Hvis Hne Hraise.
    destruct (setup_list core_extensions) as [core|e1]; simpl; [|eauto].
    rewrite Hvis. simpl. rewrite bool_decide_eq_false_2 by done. simpl.
    rewrite Hraise. simpl. eauto.
Qed.

End ModuleLevelFacts.

Lemma demo_module_eq : demo_module = Ok (fst demo_module_value, snd demo_module_value).
Proof. vm_compute. reflexivity. Defined.

Lemma EXTENSIONS_DATAFILES_visioner_witness :
  ∃ core visioner,
    pkgconfig popen_core "bob-visioner" = Ok visioner
    ∧ ext_name <$> core = fst <$> core_extensions
    ∧ length core = 10%nat
    ∧ ((visioner = ∅ ∧ fst demo_module_value = core
        ∧ snd demo_module_value = ["core/test/data/test.hdf5"] ++ handpicked_datafiles)
       ∨ (visioner ≠ ∅
          ∧ (∃ ext, fst demo_module_value = core ++ [ext]
                    ∧ ext_name ext = "bob.visioner._visioner")
          ∧ snd demo_module_value =
              (["core/test/data/test.hdf5"] ++ handpicked_datafiles) ++ visioner_datafiles)).
Proof.
  apply (EXTENSIONS_DATAFILES_visioner popen_core "" BOB_usr (2%nat, 7%nat) (fun _ => true)
           "Linux" "/numpy/include" ["core/test/data/test.hdf5"]
           (fst demo_module_value) (snd demo_module_value)).
  exact demo_module_eq.
Defined.

Lemma EXTENSIONS_all_or_nothing_witness :
  ∃ e', EXTENSIONS_DATAFILES popen_missing "" BOB_usr (2%nat, 7%nat) (fun _ => true)
          "Linux" "/numpy/include" [] = Raise e'.
Proof.
  apply (proj1 (EXTENSIONS_all_or_nothing popen_missing "" BOB_usr (2%nat, 7%nat)
                  (fun _ => true) "Linux" "/numpy/include" [])
           "bob.io._io" "bob-io-py" (KeyError "libraries")).
  - apply (bool_decide_unpack _). vm_compute. exact I.
  - vm_compute. reflexivity.
Defined.

(** ** The test data: [str.replace] and the scan of the package *)

Example str_replace_ex :
  str_replace "ab" "-" "xabyabab" = "x-y--"
  ∧ str_replace "aa" "b" "aaa" = "ba"
  ∧ str_replace "" "-" "ab" = "-a-b-"
  ∧ str_replace "/src/bob/" "" "/src/bob/io/test/data/img.pgm" = "io/test/data/img.pgm".
Proof. by vm_compute. Qed.

(** The directory of the package occurring again below itself is removed
    there too. *)
Example str_replace_twice_ex :
  str_replace "/a/bob/" "" "/a/bob/x/test/data/a/bob/y" = "x/test/datay".
Proof. by vm_compute. Qed.





Section TestDataFacts.

Variable PACKAGE_BASEDIR : string.
Variable listdir : string → result (list string).
Variable isdir : string → bool.
Variable path_exists : string → bool.
Variable walk : string → list (string * list string * list string).

Local Abbreviation remove := (Py.path_join PACKAGE_BASEDIR "bob" +:+ "/").
Local Abbreviation package_dir := (Py.path_join PACKAGE_BASEDIR "bob").
Local Abbreviation test_path pack :=
  (Py.path_join (Py.path_join (Py.path_join (Py.path_join PACKAGE_BASEDIR "bob") pack)
                   "test") "data").
Local Abbreviation add := (add_data PACKAGE_BASEDIR walk).

Lemma add_data_files l path :
  add l path =
    l ++ concat ((fun t : string * list string * list string =>
                    (fun f => str_replace remove "" (Py.path_join (fst (fst t)) f))
                      <$> snd t)
                 <$> walk path).
Proof.
  unfold add_data. generalize (walk path). intros triples. revert l.
  induction triples as [|[[sub_path dirs] files] triples IH]; intros l; simpl.
  - by rewrite app_nil_r.
  - rewrite IH, app_assoc. f_equal.
    clear. revert l. induction files as [|f files IH]; intros l; simpl.
    + by rewrite app_nil_r.
    + by rewrite IH, <- app_assoc.
Qed.

Lemma add_data_app l path : add l path = l ++ add [] path.
Proof. by rewrite (add_data_files l), (add_data_files []). Qed.


Lemma scan_subdir_loop pack subdirs retval :
  NoDup subdirs →
  foldl (scan_subdir PACKAGE_BASEDIR path_exists walk pack) retval subdirs =
    retval ++ (if bool_decide ("test" ∈ subdirs) && path_exists (test_path pack)
               then add [] (test_path pack) else []).
Proof.
  intros Hnd. revert retval. induction Hnd as [|x subdirs Hx _ IH]; intros retval;
    cbn [foldl].
  - simpl. by rewrite app_nil_r.
  - rewrite IH. unfold scan_subdir. destruct (String.eqb x "test") eqn:Heq.
    + apply String.eqb_eq in Heq as ->.
      rewrite (bool_decide_eq_false_2 ("test" ∈ subdirs)) by done.
      rewrite (bool_decide_eq_true_2 ("test" ∈ "test" :: subdirs)) by left.
      simpl. rewrite app_nil_r. destruct (path_exists _); [apply add_data_app|].
      by rewrite app_nil_r.
    + apply String.eqb_neq in Heq. f_equal.
      assert (bool_decide ("test" ∈ x :: subdirs) = bool_decide ("test" ∈ subdirs)) as ->.
      { apply bool_decide_ext. rewrite elem_of_cons. naive_solver. }
      done.
Qed.

(** X20.  When the directory of the package and its sub-directories can
    be listed, [find_all_test_data] returns, package by package in the
    order of the listing, the entries [add_data] makes for
    [<package>/test/data], for exactly the entries of the listing that are
    directories, that list an entry named [test], and whose [test/data]
    exists; an entry that is not a directory is never listed. *)
Theorem find_all_test_data_packages packs (subdirs : string → list string) :
  listdir package_dir = Ok packs →
  (∀ pack, pack ∈ packs → isdir (Py.path_join package_dir pack) = true →
           listdir (Py.path_join package_dir pack) = Ok (subdirs pack)
           ∧ NoDup (subdirs pack)) →
  find_all_test_data PACKAGE_BASEDIR listdir isdir path_exists walk =
    Ok (concat ((fun pack =>
                   if isdir (Py.path_join package_dir pack)
                      && bool_decide ("test" ∈ subdirs pack)
                      && path_exists (test_path pack)
                   then add_data PACKAGE_BASEDIR walk [] (test_path pack) else [])
                <$> packs)).
Proof.
  intros Hpacks Hsub. unfold find_all_test_data. rewrite Hpacks. simpl.
  assert (∀ retval,
            scan_packages PACKAGE_BASEDIR listdir isdir path_exists walk
              package_dir packs retval =
            Ok (retval ++ concat ((fun pack =>
                   if isdir (Py.path_join package_dir pack)
                      && bool_decide ("test" ∈ subdirs pack)
                      && path_exists (test_path pack)
                   then add [] (test_path pack) else [])
                <$> packs))) as Hloop; [|apply Hloop].
  clear Hpacks. induction packs as [|pack packs IH]; intros retval; simpl.
  - by rewrite app_nil_r.
  - destruct (isdir (Py.path_join package_dir pack)) eqn:Hdir; simpl.
    + destruct (Hsub pack) as [-> Hnd]; [by left|done|]. simpl.
      rewrite IH by (intros; apply Hsub; [by right|done]).
      rewrite scan_subdir_loop by done. by rewrite <- app_assoc.
    + apply IH. intros. apply Hsub; [by right|done].
Qed.

End TestDataFacts.


Lemma find_all_test_data_packages_witness :
  find_all_test_data "/src" demo_listdir demo_isdir (fun _ => true) demo_walk =
    Ok ["io/test/data/img.pgm"; "io/test/data/fonts/a.ttf"].
Proof.
  apply (find_all_test_data_packages "/src" demo_listdir demo_isdir (fun _ => true)
           demo_walk ["io"; "README.rst"; "core"] demo_subdirs).
  - reflexivity.
  - intros pack Hin Hdir.
    apply elem_of_cons in Hin as [->|Hin]; [split; [reflexivity|]|].
    { apply (bool_decide_unpack _). vm_compute. exact I. }
    apply elem_of_cons in Hin as [->|Hin]; [discriminate Hdir|].
    apply list_elem_of_singleton in Hin as ->. split; [reflexivity|].
    apply (bool_decide_unpack _). vm_compute. exact I.
Defined.

(** ** [Crop.__call__] *)

Section CropFacts.

Variable image : Type.
Variable load : string → image.
Variable ipCrop_defaults : gmap string Z.
Variable process : gmap string Z → image → option image.

Local Abbreviation configured options :=
  (<["h" := opt_h options]>
     (<["w" := opt_w options]>
        (<["y" := opt_y options]>
           (<["x" := opt_x options]> ipCrop_defaults)))).

(** X21.  A call of a [Crop] filter runs the crop with the four values
    of the command line (the other options of a fresh [ipCrop] are kept)
    on the image loaded from the first argument, and saves exactly when
    there are at least two arguments and the processing succeeds: then the
    call returns and one image, the output, is saved under the second
    argument.  In every other case it raises and saves nothing. *)
Theorem Crop_call_saves options args (st : crop_state image) :
  let r := Crop_call image load ipCrop_defaults process options args st in
  self_filter _ (snd r) = Some (configured options)
  ∧ (configured options !! "x" = Some (opt_x options)
     ∧ configured options !! "y" = Some (opt_y options)
     ∧ configured options !! "w" = Some (opt_w options)
     ∧ configured options !! "h" = Some (opt_h options))
  ∧ (∀ k, k ∉ ["x"; "y"; "w"; "h"] → configured options !! k = ipCrop_defaults !! k)
  ∧ (∀ source target rest out,
        args = source :: target :: rest →
        process (configured options) (load source) = Some out →
        fst r = None ∧ saved _ (snd r) = saved _ st ++ [(target, out)])
  ∧ (fst r = None →
     ∃ source target rest out,
       args = source :: target :: rest
       ∧ process (configured options) (load source) = Some out)
  ∧ (fst r ≠ None → saved _ (snd r) = saved _ st).
Proof.
  intros r. subst r. unfold Crop_call. split_and!.
  - destruct args as [|source [|target rest]]; simpl; try done;
      destruct (process _ _); done.
  - do 3 (rewrite lookup_insert_ne; [|done]). by rewrite lookup_insert_eq.
  - do 2 (rewrite lookup_insert_ne; [|done]). by rewrite lookup_insert_eq.
  - rewrite lookup_insert_ne; [|done]. by rewrite lookup_insert_eq.
  - by rewrite lookup_insert_eq.
  - intros k Hk. rewrite !not_elem_of_cons in Hk. destruct Hk as (? & ? & ? & ? & _).
    by rewrite !lookup_insert_ne.
  - intros source target rest out -> Hp. simpl. by rewrite Hp.
  - destruct args as [|source [|target rest]]; simpl; try done.
    + by destruct (process _ _).
    + destruct (process _ _) as [out|] eqn:Hp; [|done]. intros _.
      by exists source, target, rest, out.
  - destruct args as [|source [|target rest]]; simpl; try done;
      destruct (process _ _); done.
Qed.

(** X22.  The errors of a call: without arguments it raises [IndexError]
    before anything is loaded; when the processing fails it raises
    [RuntimeError] with a message that quotes the first argument; with a
    single argument and a successful processing it raises [IndexError]
    once the image has been processed. *)
Theorem Crop_call_errors options args (st : crop_state image) :
  let r := Crop_call image load ipCrop_defaults process options args st in
  (args = [] → fst r = Some Crop_IndexError)
  ∧ (∀ source rest,
        args = source :: rest →
        process (configured options) (load source) = None →
        ∃ msg, fst r = Some (Crop_RuntimeError msg)
               ∧ msg = "Processing of " +:+ dquote +:+ source +:+ dquote +:+ " has failed"
               ∧ Py.find msg source ≠ -1)
  ∧ (∀ source out,
        args = [source] →
        process (configured options) (load source) = Some out →
        fst r = Some Crop_IndexError)
  ∧ (∀ msg, fst r = Some (Crop_RuntimeError msg) →
            ∃ source rest, args = source :: rest
                           ∧ process (configured options) (load source) = None).
Proof.
  intros r. subst r. unfold Crop_call. split_and!.
  - by intros ->.
  - intros source rest -> Hp. simpl. rewrite Hp. simpl. eexists. split_and!; [done|done|].
    apply find_found. exists ("Processing of " +:+ dquote), (dquote +:+ " has failed").
    reflexivity.
  - intros source out -> Hp. simpl. by rewrite Hp.
  - intros msg. destruct args as [|source rest]; simpl; [done|].
    destruct (process _ _) as [out|] eqn:Hp.
    + by destruct rest.
    + intros _. by exists source, rest.
Qed.

End CropFacts.

(** ** The class scan: one entry per binding *)

Lemma filter_fmap_snd (P : value → Prop) `{∀ v, Decision (P v)}
    (l : list (string * value)) :
  filter P (snd <$> l) = snd <$> filter (fun kv => P (snd kv)) l.
Proof.
  induction l as [|[k v] l IH]; [done|]. csimpl.
  rewrite !filter_cons. simpl. destruct (decide (P v)); csimpl; by rewrite IH.
Qed.

Lemma map_to_list_filter_perm (P : string * value → Prop) `{∀ kv, Decision (P kv)}
    (m : gmap string value) :
  map_to_list (filter P m) ≡ₚ filter P (map_to_list m).
Proof.
  apply NoDup_Permutation.
  - apply NoDup_map_to_list.
  - apply NoDup_filter, NoDup_map_to_list.
  - intros [k v]. rewrite elem_of_map_to_list, map_lookup_filter_Some.
    rewrite list_elem_of_filter, elem_of_map_to_list. tauto.
Qed.

(** X23.  The scan makes one entry per binding, not per class: its
    result is, up to order, the values of the bindings that pass the test,
    so a filter class bound under two names is listed twice. *)
Theorem FILTERS_one_per_binding (Filter : pyclass) (scope : gmap string value) :
  FILTERS Filter scope ≡ₚ
    snd <$> map_to_list (filter (fun kv => is_filter Filter (snd kv) = true) scope)
  ∧ (∀ k1 k2 v,
        k1 ≠ k2 → scope !! k1 = Some v → scope !! k2 = Some v →
        is_filter Filter v = true →
        ∃ l1 l2 l3, FILTERS Filter scope = l1 ++ v :: l2 ++ v :: l3).
Proof.
  rewrite FILTERS_filter.
  change (map snd (map_to_list scope)) with (snd <$> map_to_list scope). split.
  - rewrite filter_fmap_snd. apply fmap_Permutation. symmetry.
    apply map_to_list_filter_perm.
  - intros k1 k2 v Hne H1 H2 Hv.
    apply elem_of_map_to_list in H1, H2.
    set (keep := fun l : list (string * value) =>
                   filter (fun v => is_filter Filter v = true) (snd <$> l)).
    assert (∀ a b, keep (a ++ b) = keep a ++ keep b) as Happ.
    { intros a b. unfold keep. by rewrite fmap_app, filter_app. }
    assert (∀ k b, keep ((k, v) :: b) = v :: keep b) as Hcons.
    { intros k b. unfold keep. rewrite fmap_cons. by rewrite filter_cons_True. }
    assert (∃ l1 l2 l3, keep (map_to_list scope) = l1 ++ v :: l2 ++ v :: l3) as Hgoal;
      [|exact Hgoal].
    apply list_elem_of_split in H1 as (a & b & Hl). rewrite Hl in H2 |- *.
    apply elem_of_app in H2 as [H2|H2].
    + apply list_elem_of_split in H2 as (a1 & a2 & ->).
      exists (keep a1), (keep a2), (keep b).
      by rewrite !Happ, !Hcons, <- app_assoc.
    + apply elem_of_cons in H2 as [[= ?]|H2]; [done|].
      apply list_elem_of_split in H2 as (b1 & b2 & ->).
      exists (keep a), (keep b1), (keep b2).
      by rewrite Happ, Hcons, Happ, Hcons.
Qed.
